(** * CareerBridge AI (app.py): listing repository and guidance generator

    A shallow embedding of the three backend functions of [app.py]
    ([fetch_jobs_from_notion], [post_job_to_notion], [get_career_guidance])
    and of the recruiter call site, over a small model of the Python values
    they manipulate.

    Conventions.
    - A Python value that can come out of [response.json()] or be handed to
      [json.dumps] is a [pyval].  A [dict] is an association list: Python
      dicts keep insertion order, and the order shows in [str] and
      [json.dumps].
    - A Python [str] is a Rocq [string]; each character is read as the code
      point of the same number (U+0000 to U+00FF).  Code points above U+00FF
      are outside the model.
    - A [float] carries, next to its value, the digits [float.__repr__]
      prints for it; the shortest round-trip algorithm is not recomputed.
    - Exceptions are the instances of class [Exception]: they are what
      [except Exception] catches.  [KeyboardInterrupt] and [SystemExit] are
      not modelled.
    - The printers refuse an int of more than 4300 digits, as CPython 3.11
      and later do by default.  Values nested deeper than the recursion
      limit of the interpreter are outside the model. *)

From Stdlib Require Import ZArith List String Ascii Bool Lia.
From Stdlib Require Import DecimalString SpecFloat.
Import ListNotations.
Open Scope string_scope.
Open Scope Z_scope.

(** ** Exceptions and fallible results *)

Inductive exn : Type :=
| AttributeError
| TypeError
| KeyError
| IndexError
| NameError
| ValueError                      (* JSONDecodeError is a ValueError *)
| RequestException (what : string) (* raised by requests.post *)
| OtherException (what : string).

Inductive result (A : Type) : Type :=
| Ok (a : A)
| Raise (e : exn).
Arguments Ok {A} a.
Arguments Raise {A} e.

Definition rbind {A B} (r : result A) (k : A -> result B) : result B :=
  match r with
  | Ok a => k a
  | Raise e => Raise e
  end.

Declare Scope res_scope.
Delimit Scope res_scope with res.
Notation "x <- r ;; k" := (rbind r (fun x => k))
  (at level 61, r at next level, right associativity) : res_scope.

(** ** Python values *)

Module Py.

#[local] Set Warnings "-register-all".

Inductive pyval : Type :=
| PNone
| PBool (b : bool)
| PInt (z : Z)
| PFloat (f : spec_float) (digits : string)
| PStr (s : string)
| PList (l : list pyval)
| PDict (kvs : list (string * pyval)).

(** [d.get(k)] on the association list: the first binding of [k]. *)
Fixpoint lookup (k : string) (kvs : list (string * pyval)) : option pyval :=
  match kvs with
  | [] => None
  | (k', v) :: rest => if String.eqb k k' then Some v else lookup k rest
  end.

(** [bool(v)]: the truth value the conditional expression tests. *)
Definition truthy (v : pyval) : bool :=
  match v with
  | PNone => false
  | PBool b => b
  | PInt z => negb (z =? 0)
  | PFloat (S754_zero _) _ => false
  | PFloat _ _ => true
  | PStr s => negb (String.eqb s "")
  | PList l => match l with [] => false | _ => true end
  | PDict kvs => match kvs with [] => false | _ => true end
  end.

(** [v.get(k, d)]: only a dict has the method. *)
Definition get (v : pyval) (k : string) (d : pyval) : result pyval :=
  match v with
  | PDict kvs => Ok (match lookup k kvs with Some x => x | None => d end)
  | _ => Raise AttributeError
  end.

(** [v[0]]. A dict decoded from JSON has only string keys, so the integer
    key is never found. *)
Definition item0 (v : pyval) : result pyval :=
  match v with
  | PList (x :: _) => Ok x
  | PList [] => Raise IndexError
  | PStr (String c _) => Ok (PStr (String c EmptyString))
  | PStr EmptyString => Raise IndexError
  | PDict _ => Raise KeyError
  | _ => Raise TypeError
  end.

(** [v[k]] for a string key [k]. *)
Definition item (v : pyval) (k : string) : result pyval :=
  match v with
  | PDict kvs => match lookup k kvs with Some x => Ok x | None => Raise KeyError end
  | _ => Raise TypeError
  end.

(** [iter(v)] unrolled: what a [for] loop over [v] visits. *)
Definition chars (s : string) : list pyval :=
  map (fun c => PStr (String c EmptyString)) (list_ascii_of_string s).

Definition iter (v : pyval) : result (list pyval) :=
  match v with
  | PList l => Ok l
  | PDict kvs => Ok (map (fun kv => PStr (fst kv)) kvs)
  | PStr s => Ok (chars s)
  | _ => Raise TypeError
  end.

(** *** Text of values: [str], [repr] and [json.dumps] *)

Definition dquote : ascii := ascii_of_nat 34.
Definition squote : ascii := ascii_of_nat 39.
Definition bslash : ascii := ascii_of_nat 92.

Definition str1 (c : ascii) : string := String c EmptyString.

Definition hexdigit (n : nat) : ascii :=
  match n with
  | 0 => "0" | 1 => "1" | 2 => "2" | 3 => "3" | 4 => "4" | 5 => "5"
  | 6 => "6" | 7 => "7" | 8 => "8" | 9 => "9" | 10 => "a" | 11 => "b"
  | 12 => "c" | 13 => "d" | 14 => "e" | _ => "f"
  end%nat%char.

Definition hex2 (c : ascii) : string :=
  let n := nat_of_ascii c in
  String (hexdigit (n / 16)) (String (hexdigit (n mod 16)) EmptyString).

(** [str(int)]. *)
Definition int_str (z : Z) : string := NilZero.string_of_int (Z.to_int z).

(** [float.__repr__]. *)
Definition float_repr (f : spec_float) (digits : string) : string :=
  match f with
  | S754_nan => "nan"
  | S754_infinity true => "-inf"
  | S754_infinity false => "inf"
  | _ => digits
  end.

(** [str.isprintable] on one character of U+0000..U+00FF: controls
    (Cc), the no-break space (Zs) and the soft hyphen (Cf) are not. *)
Definition printable (c : ascii) : bool :=
  let n := nat_of_ascii c in
  ((32 <=? n) && (n <=? 126) || (161 <=? n) && negb (n =? 173))%nat.

Fixpoint contains (c : ascii) (s : string) : bool :=
  match s with
  | EmptyString => false
  | String c' s' => Ascii.eqb c c' || contains c s'
  end.

(** The quote [repr] puts around a str: double quotes only when the text
    has a single quote and no double quote. *)
Definition repr_quote (s : string) : ascii :=
  if contains squote s && negb (contains dquote s) then dquote else squote.

Definition repr_char (q c : ascii) : string :=
  if Ascii.eqb c q || Ascii.eqb c bslash then String bslash (str1 c)
  else if Ascii.eqb c (ascii_of_nat 9) then String bslash "t"
  else if Ascii.eqb c (ascii_of_nat 10) then String bslash "n"
  else if Ascii.eqb c (ascii_of_nat 13) then String bslash "r"
  else if printable c then str1 c
  else String bslash (String "x" (hex2 c)).

Fixpoint repr_body (q : ascii) (s : string) : string :=
  match s with
  | EmptyString => EmptyString
  | String c s' => repr_char q c ++ repr_body q s'
  end.

Definition str_repr (s : string) : string :=
  let q := repr_quote s in
  String q (repr_body q s ++ str1 q).

(** [repr(v)]. *)
Fixpoint repr (v : pyval) : string :=
  match v with
  | PNone => "None"
  | PBool true => "True"
  | PBool false => "False"
  | PInt z => int_str z
  | PFloat f d => float_repr f d
  | PStr s => str_repr s
  | PList l =>
      "[" ++ String.concat ", " (map repr l) ++ "]"
  | PDict kvs =>
      "{" ++ String.concat ", "
               ((fix items (kvs : list (string * pyval)) : list string :=
                   match kvs with
                   | [] => []
                   | (k, x) :: rest => (str_repr k ++ ": " ++ repr x) :: items rest
                   end) kvs) ++ "}"
  end.

(** [str(v)], which is also what a replacement field [{v}] of an f-string
    inserts. *)
Definition str (v : pyval) : string :=
  match v with
  | PStr s => s
  | _ => repr v
  end.

(** [json.dumps] with its defaults: [ensure_ascii=True], separators
    [", "] and [": "], [allow_nan=True]. *)
Definition json_char (c : ascii) : string :=
  if Ascii.eqb c dquote || Ascii.eqb c bslash then String bslash (str1 c)
  else if Ascii.eqb c (ascii_of_nat 10) then String bslash "n"
  else if Ascii.eqb c (ascii_of_nat 13) then String bslash "r"
  else if Ascii.eqb c (ascii_of_nat 9) then String bslash "t"
  else if Ascii.eqb c (ascii_of_nat 8) then String bslash "b"
  else if Ascii.eqb c (ascii_of_nat 12) then String bslash "f"
  else if ((32 <=? nat_of_ascii c) && (nat_of_ascii c <=? 126))%nat then str1 c
  else String bslash ("u00" ++ hex2 c).

Fixpoint json_body (s : string) : string :=
  match s with
  | EmptyString => EmptyString
  | String c s' => json_char c ++ json_body s'
  end.

Definition json_str (s : string) : string :=
  String dquote (json_body s ++ str1 dquote).

Definition json_float (f : spec_float) (digits : string) : string :=
  match f with
  | S754_nan => "NaN"
  | S754_infinity true => "-Infinity"
  | S754_infinity false => "Infinity"
  | _ => digits
  end.

Fixpoint dumps (v : pyval) : string :=
  match v with
  | PNone => "null"
  | PBool true => "true"
  | PBool false => "false"
  | PInt z => int_str z
  | PFloat f d => json_float f d
  | PStr s => json_str s
  | PList l => "[" ++ String.concat ", " (map dumps l) ++ "]"
  | PDict kvs =>
      "{" ++ String.concat ", "
               ((fix items (kvs : list (string * pyval)) : list string :=
                   match kvs with
                   | [] => []
                   | (k, x) :: rest => (json_str k ++ ": " ++ dumps x) :: items rest
                   end) kvs) ++ "}"
  end.

End Py.
Import Py.

(** ** The world around the functions

    [requests.post] and [model.generate_content] are external services:
    the environment holds what they answer.  What the program does to the
    outside (requests sent, prompts submitted, messages shown by
    [st.error]) is recorded, in order, in an event log. *)

Record request : Type := {
  req_url : string;
  req_headers : list (string * string);
  req_json : pyval
}.

(** The attributes of a [requests.Response] the program reads. *)
Record response : Type := {
  status_code : Z;
  text : string;
  json : result pyval     (* response.json(): the decoded body, or the decoder raises *)
}.

(** What [generate_content] returns: its [text] property may itself raise. *)
Record generation : Type := {
  gen_text : result string
}.

Record env : Type := {
  NOTION_KEY : pyval;            (* os.getenv: a str, or None when unset *)
  NOTION_DATABASE_ID : pyval;
  requests_post : request -> result response;
  (* the global [model]; unbound when genai configuration raised at start-up *)
  model : option (string -> result generation)
}.

Inductive ui_message : Type :=
| AuthenticationError              (* line 87 *)
| ConnectionFailed (e : exn)       (* lines 125 and 153 *)
| FailedToPost (body : string).    (* line 150 *)

Inductive event : Type :=
| Posted (r : request)
| Prompted (prompt : string)
| StError (m : ui_message)
| StWarning (m : string)
| StSuccess (m : string)
| Slept (seconds : Z)            (* time.sleep *)
| Rerun.                         (* st.rerun *)

(** Computations: read the environment, extend the log, return or raise. *)
Definition io (A : Type) : Type := env -> list event -> result A * list event.

Definition ret {A} (a : A) : io A := fun _ log => (Ok a, log).

Definition throw {A} (e : exn) : io A := fun _ log => (Raise e, log).

Definition bind {A B} (c : io A) (k : A -> io B) : io B :=
  fun w log =>
    match c w log with
    | (Ok a, log') => k a w log'
    | (Raise e, log') => (Raise e, log')
    end.

Definition lift {A} (r : result A) : io A := fun _ log => (r, log).

Definition emit (ev : event) : io unit := fun _ log => (Ok tt, (log ++ [ev])%list).

Definition ask : io env := fun w log => (Ok w, log).

(** [try: body except Exception as e: handler e] *)
Definition try_except {A} (body : io A) (handler : exn -> io A) : io A :=
  fun w log =>
    match body w log with
    | (Ok a, log') => (Ok a, log')
    | (Raise e, log') => handler e w log'
    end.

Declare Scope io_scope.
Delimit Scope io_scope with io.
Notation "x <- c ;; k" := (bind c (fun x => k))
  (at level 61, c at next level, right associativity) : io_scope.
Notation "c ;;; k" := (bind c (fun _ => k))
  (at level 61, right associativity) : io_scope.

Definition st_error (m : ui_message) : io unit := emit (StError m).
Definition st_warning (m : string) : io unit := emit (StWarning m).

(** [requests.post(url, headers=..., json=...)] *)
Definition post (url : string) (headers : list (string * string)) (body : pyval)
  : io response :=
  (w <- ask ;;
   let r := {| req_url := url; req_headers := headers; req_json := body |} in
   emit (Posted r) ;;;
   lift (requests_post w r))%io.

(** ** Backend functions of app.py *)

(** Lines 72-77. *)
Definition notion_headers (w : env) : list (string * string) :=
  [ ("Authorization", "Bearer " ++ str (NOTION_KEY w));
    ("Content-Type", "application/json");
    ("Notion-Version", "2022-06-28") ].

(** The pattern of lines 98-99, repeated for each of the five columns:
    [l = props.get(name, {}).get(kind, []); l[0]["plain_text"] if l else default]. *)
Definition first_plain_text (props : pyval) (name kind : string) (default : string)
  : result pyval :=
  (prop <- get props name (PDict []) ;;
   frags <- get prop kind (PList []) ;;
   if truthy frags then
     frag <- item0 frags ;;
     item frag "plain_text"
   else Ok (PStr default))%res.

(** The body of the loop, lines 93-122: the dict appended to [jobs]. *)
Definition extract_job (page : pyval) : result pyval :=
  (props <- get page "properties" (PDict []) ;;
   job_title <- first_plain_text props "Title" "title" "Untitled" ;;
   role_detail <- first_plain_text props "Role" "rich_text" "" ;;
   company <- first_plain_text props "Company" "rich_text" "Unknown" ;;
   skills <- first_plain_text props "Required Skills" "rich_text" "" ;;
   desc <- first_plain_text props "Description" "rich_text" "" ;;
   Ok (PDict [ ("role", PStr (str job_title ++ " - " ++ str role_detail));
               ("company", company);
               ("skills", skills);
               ("description", desc) ]))%res.

(** The [for] loop of line 92, with [jobs.append] as an accumulator. *)
Fixpoint for_pages (pages : list pyval) (jobs : list pyval) : result (list pyval) :=
  match pages with
  | [] => Ok jobs
  | page :: rest =>
      (job <- extract_job page ;;
       for_pages rest (jobs ++ [job])%list)%res
  end.

(** Lines 79-126. *)
Definition fetch_jobs_from_notion : io pyval :=
  (w <- ask ;;
   let url := "https://api.notion.com/v1/databases/"
                ++ str (NOTION_DATABASE_ID w) ++ "/query" in
   try_except
     (response <- post url (notion_headers w) (PDict []) ;;
      if status_code response =? 401 then
        st_error AuthenticationError ;;;
        ret (PList [])
      else
        data <- lift (json response) ;;
        results <- lift (get data "results" (PList [])) ;;
        pages <- lift (iter results) ;;
        jobs <- lift (for_pages pages []) ;;
        ret (PList jobs))
     (fun e =>
        st_error (ConnectionFailed e) ;;;
        ret (PList [])))%io.

(** The request body of lines 131-142. *)
Definition rich_text (content : pyval) : pyval :=
  PDict [("rich_text", PList [PDict [("text", PDict [("content", content)])]])].

Definition title_text (content : pyval) : pyval :=
  PDict [("title", PList [PDict [("text", PDict [("content", content)])]])].

Definition post_job_payload (w : env)
  (title role_detail company skills description contact : pyval) : pyval :=
  PDict [ ("parent", PDict [("database_id", NOTION_DATABASE_ID w)]);
          ("properties",
            PDict [ ("Title", title_text title);
                    ("Role", rich_text role_detail);
                    ("Company", rich_text company);
                    ("Required Skills", rich_text skills);
                    ("Description", rich_text description);
                    ("Contact", rich_text contact) ]) ].

(** Lines 128-154. *)
Definition post_job_to_notion
  (title role_detail company skills description contact : pyval) : io pyval :=
  (w <- ask ;;
   let url := "https://api.notion.com/v1/pages" in
   let payload :=
     post_job_payload w title role_detail company skills description contact in
   try_except
     (response <- post url (notion_headers w) payload ;;
      if status_code response =? 200 then
        ret (PBool true)
      else
        st_error (FailedToPost (text response)) ;;;
        ret (PBool false))
     (fun e =>
        st_error (ConnectionFailed e) ;;;
        ret (PBool false)))%io.

(** The parameter list of line 128, and a call with positional arguments:
    the arguments fill the parameters from the left, and a call that leaves
    a parameter without a value (none has a default) or has an argument too
    many raises [TypeError] before the body runs. *)
Definition post_job_to_notion_params : list string :=
  ["title"; "role_detail"; "company"; "skills"; "description"; "contact"].

Definition positional (params : list string) (args : list pyval)
  : list (string * pyval) :=
  combine params args.

Definition bind_positional (params : list string) (args : list pyval)
  : result (list (string * pyval)) :=
  if (List.length args =? List.length params)%nat then
    Ok (positional params args)
  else Raise TypeError.

(** The value of a parameter in the body. *)
Definition local (locals : list (string * pyval)) (name : string)
  : result pyval :=
  match lookup name locals with
  | Some v => Ok v
  | None => Raise NameError
  end.

Definition call_post_job_to_notion (args : list pyval) : io pyval :=
  (locals <- lift (bind_positional post_job_to_notion_params args) ;;
   title <- lift (local locals "title") ;;
   role_detail <- lift (local locals "role_detail") ;;
   company <- lift (local locals "company") ;;
   skills <- lift (local locals "skills") ;;
   description <- lift (local locals "description") ;;
   contact <- lift (local locals "contact") ;;
   post_job_to_notion title role_detail company skills description contact)%io.

(** *** Guidance generator, lines 157-183 *)

Definition nl : string := String (ascii_of_nat 10) EmptyString.

(** The template of lines 162-178, cut at its two replacement fields. *)
Definition prompt_intro : string :=
  String.concat ""
    [ nl;
      "    You are an expert AI Career Counselor. ";
      nl;
      "    ";
      nl;
      "    1. ANALYZE the Student Profile:";
      nl;
      "    " ].

(** Between the profile and the listings. *)
Definition prompt_market : string :=
  String.concat ""
    [ nl;
      "    ";
      nl;
      "    2. ANALYZE the Current Job Market (data fetched from real-time database):";
      nl;
      "    " ].

(** After the listings. *)
Definition prompt_output : string :=
  String.concat ""
    [ nl;
      "    ";
      nl;
      "    3. PROVIDE OUTPUT in strictly valid Markdown format:";
      nl;
      "    - **Match Analysis**: Compare the student's skills to the specific jobs listed in the market data.";
      nl;
      "    - **Skill Gap**: Identify exactly what skills (Python, SQL, Communication, etc.) the student lacks for the best matching roles.";
      nl;
      "    - **Recommended Jobs**: List the top 2-3 specific roles from the market data that fit best.";
      nl;
      "    - **Learning Path**: A short, bulleted list of what they should learn next.";
      nl;
      "    ";
      nl;
      "    Tone: Encouraging, professional, and specific.";
      nl;
      "    " ].

(** CPython 3.11 and later refuse to print an int of more than 4300
    decimal digits (the default of [sys.set_int_max_str_digits], which
    app.py does not change): [str], [repr] and [json.dumps] of a value
    that holds such an int raise [ValueError]. *)
Definition max_str_digits : Z := 4300.

Definition int_prints (z : Z) : bool := Z.abs z <? 10 ^ max_str_digits.

Fixpoint prints (v : pyval) : bool :=
  match v with
  | PInt z => int_prints z
  | PList l => forallb prints l
  | PDict kvs =>
      (fix values (kvs : list (string * pyval)) : bool :=
         match kvs with
         | [] => true
         | (_, x) :: rest => prints x && values rest
         end) kvs
  | _ => true
  end.

(** [str(v)] and [json.dumps(v)] as calls that can raise.  A value decoded
    by [response.json()] holds no such int (the decoder refuses it too), so
    the f-strings over fetched values (lines 118, 229-230 and 282-287) are
    written with [str]. *)
Definition str_of (v : pyval) : result string :=
  if prints v then Ok (str v) else Raise ValueError.

Definition json_dumps (v : pyval) : result string :=
  if prints v then Ok (dumps v) else Raise ValueError.

(** The template of lines 162-178 around its two replacement fields. *)
Definition prompt_text (profile_text market_json : string) : string :=
  prompt_intro ++ profile_text ++ prompt_market ++ market_json ++ prompt_output.

(** The f-string of lines 162-178: the two fields are evaluated from left
    to right, and either can raise. *)
Definition guidance_prompt (student_profile job_market_data : pyval)
  : result string :=
  (profile_text <- str_of student_profile ;;
   market_json <- json_dumps job_market_data ;;
   Ok (prompt_text profile_text market_json))%res.

Definition fallback_report : string :=
  "Sorry, I couldn't generate an analysis at this moment.".

(** The prompt is built before the [try] of line 179: an exception of the
    f-string leaves the function. *)
Definition get_career_guidance (student_profile job_market_data : pyval)
  : io string :=
  (prompt <- lift (guidance_prompt student_profile job_market_data) ;;
   try_except
     (w <- ask ;;
      generate_content <-
        match model w with
        | Some g => ret g
        | None => throw NameError
        end ;;
      emit (Prompted prompt) ;;;
      response <- lift (generate_content prompt) ;;
      lift (gen_text response))
     (fun _ => ret fallback_report))%io.

(** ** Recruiter view: the Post Job button, lines 212-221 *)

(** The argument list of the call on line 215, from the five widgets of
    lines 205-210. *)
Definition post_job_call_args
  (company_name role_title contact_info req_skills job_desc : pyval)
  : list pyval :=
  [role_title; company_name; req_skills; job_desc; contact_info].

(** Lines 215-219: the call and what follows it.  [st.rerun] ends the run
    of the script by raising Streamlit's RerunException; no [try] of
    app.py encloses line 219. *)
Definition after_post_job (call : io pyval) : io unit :=
  (success <- call ;;
   if truthy success then
     emit (StSuccess "Job posted successfully! It is now visible to students.") ;;;
     emit (Slept 2) ;;;
     emit Rerun ;;;
     throw (OtherException "RerunException")
   else ret tt)%io.

(** Lines 212-221, for any function [create] bound to the global name
    [post_job_to_notion] when the button is pressed. *)
Definition post_job_clicked_on (create : list pyval -> io pyval)
  (company_name role_title contact_info req_skills job_desc : pyval)
  : io unit :=
  (if truthy company_name && truthy role_title && truthy req_skills then
     after_post_job
       (create (post_job_call_args company_name role_title contact_info
                  req_skills job_desc))
   else
     st_warning "Please fill in Company, Role, and Skills.")%io.

(** The handler in app.py, where the name is bound by line 128. *)
Definition post_job_clicked
  (company_name role_title contact_info req_skills job_desc : pyval)
  : io unit :=
  post_job_clicked_on call_post_job_to_notion
    company_name role_title contact_info req_skills job_desc.

(** ** What the spec documents, in the spec's words *)

Module Documented.

(** Section 6: each input string is wrapped as [{title:[{text:{content:..}}]}]
    or [{rich_text:[{text:{content:..}}]}] according to the field's type. *)
Inductive property_kind : Type := TitleKind | RichTextKind.

Definition kind_key (k : property_kind) : string :=
  match k with
  | TitleKind => "title"
  | RichTextKind => "rich_text"
  end.

Definition wrapped (k : property_kind) (content : string) : pyval :=
  PDict [(kind_key k, PList [PDict [("text", PDict [("content", PStr content)])]])].

(** The field mapping of the create operation: property name, property
    type, input. *)
Definition property_map
  (title role_detail company skills description contact : string) : pyval :=
  PDict (map (fun '(name, k, content) => (name, wrapped k content))
           [ ("Title", TitleKind, title);
             ("Role", RichTextKind, role_detail);
             ("Company", RichTextKind, company);
             ("Required Skills", RichTextKind, skills);
             ("Description", RichTextKind, description);
             ("Contact", RichTextKind, contact) ]).

(** Section 4.1: a field is the text of the first fragment of its
    property, else its default. *)
Definition fragments (props : list (string * pyval)) (name kind : string)
  : list pyval :=
  match lookup name props with
  | Some (PDict prop) =>
      match lookup kind prop with
      | Some (PList frags) => frags
      | _ => []
      end
  | _ => []
  end.

Definition field (props : list (string * pyval)) (name kind default : string)
  : string :=
  match fragments props name kind with
  | PDict frag :: _ =>
      match lookup "plain_text" frag with
      | Some (PStr s) => s
      | _ => default
      end
  | _ => default
  end.

Definition properties_of (page : pyval) : list (string * pyval) :=
  match page with
  | PDict kvs =>
      match lookup "properties" kvs with
      | Some (PDict props) => props
      | _ => []
      end
  | _ => []
  end.

(** The JobListing of a page: title and role joined as ["{title} - {role}"]. *)
Definition listing (page : pyval) : pyval :=
  let props := properties_of page in
  PDict [ ("role", PStr (field props "Title" "title" "Untitled" ++ " - "
                           ++ field props "Role" "rich_text" ""));
          ("company", PStr (field props "Company" "rich_text" "Unknown"));
          ("skills", PStr (field props "Required Skills" "rich_text" ""));
          ("description", PStr (field props "Description" "rich_text" "")) ].

End Documented.

(** ** Requests the two repository operations send *)

Definition fetch_request (w : env) : request :=
  {| req_url := "https://api.notion.com/v1/databases/"
                  ++ str (NOTION_DATABASE_ID w) ++ "/query";
     req_headers := notion_headers w;
     req_json := PDict [] |}.

Definition is_posted (ev : event) : bool :=
  match ev with
  | Posted _ => true
  | _ => false
  end.

Ltac io_unfold :=
  unfold st_error, st_warning, post;
  unfold try_except, bind, ask, emit, lift, ret, throw.

(** ** Well-formed pages (section 6 of the spec) *)

(** A fragment list as the remote API documents it: an array of objects
    that each carry a string [plain_text]. *)
Definition well_formed_fragment (frag : pyval) : bool :=
  match frag with
  | PDict kvs =>
      match lookup "plain_text" kvs with
      | Some (PStr _) => true
      | _ => false
      end
  | _ => false
  end.

(** A property of the given type: an object whose entry for the type, when
    it has one, is a fragment list. *)
Definition well_formed_property (kind : string) (prop : pyval) : bool :=
  match prop with
  | PDict kvs =>
      match lookup kind kvs with
      | None => true
      | Some (PList frags) => forallb well_formed_fragment frags
      | Some _ => false
      end
  | _ => false
  end.

Definition well_formed_column (props : list (string * pyval)) (name kind : string)
  : bool :=
  match lookup name props with
  | None => true
  | Some prop => well_formed_property kind prop
  end.

Definition well_formed_page (page : pyval) : bool :=
  match page with
  | PDict kvs =>
      match lookup "properties" kvs with
      | None => true
      | Some (PDict props) =>
          well_formed_column props "Title" "title"
          && well_formed_column props "Role" "rich_text"
          && well_formed_column props "Company" "rich_text"
          && well_formed_column props "Required Skills" "rich_text"
          && well_formed_column props "Description" "rich_text"
      | Some _ => false
      end
  | _ => false
  end.

(** The column yields no fragment: the property is missing, has no entry
    for its type, or its fragment list is empty. *)
Definition no_fragment (props : list (string * pyval)) (name kind : string)
  : bool :=
  match lookup name props with
  | None => true
  | Some (PDict prop) =>
      match lookup kind prop with
      | None => true
      | Some (PList []) => true
      | Some _ => false
      end
  | Some _ => false
  end.

(** The column falls back to its default: the property is missing, or it
    is an object whose entry for its type is missing or falsy (an empty
    list, but also null, 0, an empty string or an empty object). *)
Definition falls_back (props : list (string * pyval)) (name kind : string)
  : bool :=
  match lookup name props with
  | None => true
  | Some (PDict prop) =>
      match lookup kind prop with
      | None => true
      | Some frags => negb (truthy frags)
      end
  | Some _ => false
  end.

(** A JobListing of section 3 of the spec, as the dict of lines 117-122. *)
Definition listing_dict (title_line company skills description : string)
  : pyval :=
  PDict [ ("role", PStr title_line); ("company", PStr company);
          ("skills", PStr skills); ("description", PStr description) ].

(** [response.json()] itself refuses an int of more than 4300 digits, so
    a decoded body holds none. *)
Definition body_prints (w : env) : Prop :=
  forall r v,
    requests_post w (fetch_request w) = Ok r ->
    json r = Ok v ->
    prints v = true.

(** ** Sample worlds *)

(** A configured process whose transport gives the same answer to every
    request and whose model is not bound. *)
Definition world_answering (answer : result response) : env :=
  {| NOTION_KEY := PStr "secret_key";
     NOTION_DATABASE_ID := PStr "db1";
     requests_post := fun _ => answer;
     model := None |}.

Definition json_response (status : Z) (data : pyval) : response :=
  {| status_code := status; text := ""; json := Ok data |}.

Definition fragment (s : string) : pyval := PDict [("plain_text", PStr s)].

(** Title "Intern", Role "Backend", no other property. *)
Definition intern_page : pyval :=
  PDict [("properties",
           PDict [ ("Title", PDict [("title", PList [fragment "Intern"])]);
                   ("Role", PDict [("rich_text", PList [fragment "Backend"])]) ])].

(** A page whose Company fragment has no [plain_text]. *)
Definition page_without_plain_text : pyval :=
  PDict [("properties",
           PDict [("Company",
                    PDict [("rich_text", PList [PDict [("text", PStr "Acme")]])])])].

(** A page whose Company fragment has a null [plain_text]. *)
Definition page_with_null_plain_text : pyval :=
  PDict [("properties",
           PDict [("Company",
                    PDict [("rich_text", PList [PDict [("plain_text", PNone)]])])])].

Definition query_result (pages : list pyval) : pyval :=
  PDict [("object", PStr "list"); ("results", PList pages)].

(** ** Notions the claims speak of *)

(** The three failures of the fetch the spec lists. *)
Inductive fetch_failure (w : env) : Prop :=
| transport_throws e :
    requests_post w (fetch_request w) = Raise e -> fetch_failure w
| body_not_json r e :
    requests_post w (fetch_request w) = Ok r -> json r = Raise e ->
    fetch_failure w
| unauthorized r :
    requests_post w (fetch_request w) = Ok r -> status_code r = 401 ->
    fetch_failure w.

(** The field of a listing, as the UI reads it with [job[key]]. *)
Definition job_field (job : pyval) (key : string) : option pyval :=
  match job with
  | PDict kvs => lookup key kvs
  | _ => None
  end.

(** C1 as the spec states it: whatever the shape of the properties, every
    field of every returned listing is a string. *)
Definition every_field_is_a_string : Prop :=
  forall w log jobs job key,
    fst (fetch_jobs_from_notion w log) = Ok (PList jobs) ->
    In job jobs ->
    In key ["role"; "company"; "skills"; "description"] ->
    exists s, job_field job key = Some (PStr s).

(** The request create sends. *)
Definition create_request (w : env)
  (title role_detail company skills description contact : pyval) : request :=
  {| req_url := "https://api.notion.com/v1/pages";
     req_headers := notion_headers w;
     req_json :=
       post_job_payload w title role_detail company skills description contact |}.

(** The ways the model call of line 180-181 throws: the global [model] is
    not bound, [generate_content] raises, or reading [response.text]
    raises. *)
Inductive model_call_throws (w : env) (prompt : string) : Prop :=
| model_unbound :
    model w = None -> model_call_throws w prompt
| generate_content_raises g e :
    model w = Some g -> g prompt = Raise e -> model_call_throws w prompt
| response_text_raises g r e :
    model w = Some g -> g prompt = Ok r -> gen_text r = Raise e ->
    model_call_throws w prompt.

(** A world whose model answers every prompt the same way. *)
Definition world_with_model (answer : result generation) : env :=
  {| NOTION_KEY := PStr "secret_key";
     NOTION_DATABASE_ID := PStr "db1";
     requests_post := fun _ => Raise (RequestException "offline");
     model := Some (fun _ => answer) |}.

Definition sample_profile : pyval :=
  PDict [("name", PStr "Asha"); ("skills", PStr "Python");
         ("interests", PStr "Data")].

(** ** The two views, lines 197-289

    A view writes widgets on the page.  The widgets with a fixed text are
    named after the call that shows them; the ones built from data carry
    the data.  Layout containers, input widgets and the spinner are not
    recorded: the values typed by the user are the arguments of the view.
    The effects of the backend functions a view calls are recorded in
    place, in the order they happen. *)

Inductive widget : Type :=
| Backend (ev : event)
| Expander (label : string)             (* st.expander, line 229 *)
| Write (v : pyval)                     (* st.write, lines 230 and 231 *)
| NoActiveJobs                          (* st.info, line 233 *)
| ReportCard (guidance : string)        (* the four st.markdown of lines 269-272 *)
| ProfileIncomplete                     (* st.warning, line 274 *)
| GetStarted                            (* st.info and st.markdown, lines 277-278 *)
| JobCard (role company skills : string) (* st.markdown, lines 282-287 *)
| NoJobsAvailable.                      (* st.markdown, line 289 *)

Definition view (A : Type) : Type :=
  env -> list widget -> result A * list widget.

Definition vret {A} (a : A) : view A := fun _ page => (Ok a, page).

Definition vbind {A B} (c : view A) (k : A -> view B) : view B :=
  fun w page =>
    match c w page with
    | (Ok a, page') => k a w page'
    | (Raise e, page') => (Raise e, page')
    end.

Definition vlift {A} (r : result A) : view A := fun _ page => (r, page).

Definition show (wd : widget) : view unit :=
  fun _ page => (Ok tt, (page ++ [wd])%list).

(** A call of a backend function from a view: its effects go on the
    record after what the view has shown so far. *)
Definition backend {A} (c : io A) : view A :=
  fun w page =>
    let (r, evs) := c w [] in
    (r, (page ++ map Backend evs)%list).

Declare Scope view_scope.
Delimit Scope view_scope with view.
Notation "x <- c ;; k" := (vbind c (fun x => k))
  (at level 61, c at next level, right associativity) : view_scope.
Notation "c ;;; k" := (vbind c (fun _ => k))
  (at level 61, right associativity) : view_scope.

Ltac view_unfold := unfold vbind, vlift, vret, show, backend.

(** A [for] loop whose body only acts on the page. *)
Fixpoint for_each (body : pyval -> view unit) (items : list pyval) : view unit :=
  match items with
  | [] => vret tt
  | x :: rest => (body x ;;; for_each body rest)%view
  end.

(** [v[:n]].  Only a list or a str is ever sliced here. *)
Definition slice_to (n : nat) (v : pyval) : result pyval :=
  match v with
  | PList l => Ok (PList (firstn n l))
  | PStr s => Ok (PStr (substring 0 n s))
  | _ => Raise TypeError
  end.

(** Lines 229-231: one listing of the recruiter view. *)
Definition show_listing (job : pyval) : view unit :=
  (role <- vlift (item job "role") ;;
   company <- vlift (item job "company") ;;
   show (Expander (str role ++ " at " ++ str company)) ;;;
   skills <- vlift (item job "skills") ;;
   show (Write (PStr ("**Skills:** " ++ str skills))) ;;;
   description <- vlift (item job "description") ;;
   show (Write description))%view.

(** Lines 226-233: Current Active Listings. *)
Definition active_listings : view unit :=
  (current_jobs <- backend fetch_jobs_from_notion ;;
   if truthy current_jobs then
     jobs <- vlift (iter current_jobs) ;;
     for_each show_listing jobs
   else
     show NoActiveJobs)%view.

(** Lines 198-233: the recruiter view, with the state of the Post Job
    button and the five inputs. *)
Definition recruiter_view (post_clicked : bool)
  (company_name role_title contact_info req_skills job_desc : string)
  : view unit :=
  ((if post_clicked then
      backend (post_job_clicked (PStr company_name) (PStr role_title)
                 (PStr contact_info) (PStr req_skills) (PStr job_desc))
    else vret tt) ;;;
   active_listings)%view.

(** Lines 282-287: one card of Recently Posted Jobs. *)
Definition show_job_card (job : pyval) : view unit :=
  (role <- vlift (item job "role") ;;
   company <- vlift (item job "company") ;;
   skills <- vlift (item job "skills") ;;
   show (JobCard (str role) (str company) (str skills)))%view.

(** Lines 259-263. *)
Definition profile_dict (s_name s_skills s_interests : string) : pyval :=
  PDict [ ("name", PStr s_name);
          ("skills", PStr s_skills);
          ("interests", PStr s_interests) ].

(** Lines 252-289: the right column of the student view, with the state
    of the Analyze button and the three inputs. *)
Definition student_view (analyze_btn : bool)
  (s_name s_skills s_interests : string) : view unit :=
  (if analyze_btn && truthy (PStr s_skills) && truthy (PStr s_interests) then
     market_data <- backend fetch_jobs_from_notion ;;
     let student_profile := profile_dict s_name s_skills s_interests in
     guidance <- backend (get_career_guidance student_profile market_data) ;;
     show (ReportCard guidance)
   else if analyze_btn then
     show ProfileIncomplete
   else
     show GetStarted ;;;
     fetched <- backend fetch_jobs_from_notion ;;
     recent_jobs <- vlift (slice_to 3 fetched) ;;
     if truthy recent_jobs then
       jobs <- vlift (iter recent_jobs) ;;
       for_each show_job_card jobs
     else
       show NoJobsAvailable)%view.

(** What the two views show for one listing: the text of a field is the
    [str] of its value. *)
Definition field_text (job : pyval) (key : string) : string :=
  match job_field job key with
  | Some v => str v
  | None => ""
  end.

Definition listing_widgets (job : pyval) : list widget :=
  [ Expander (field_text job "role" ++ " at " ++ field_text job "company");
    Write (PStr ("**Skills:** " ++ field_text job "skills"));
    Write (match job_field job "description" with
           | Some v => v
           | None => PNone
           end) ].

Definition card_widget (job : pyval) : list widget :=
  [ JobCard (field_text job "role") (field_text job "company")
      (field_text job "skills") ].

(** The shape of every dict the loop of fetch appends. *)
Definition is_listing (job : pyval) : Prop :=
  exists (role : string) (company skills description : pyval),
    job = PDict [ ("role", PStr role); ("company", company);
                  ("skills", skills); ("description", description) ].

Definition is_dict (v : pyval) : bool :=
  match v with
  | PDict _ => true
  | _ => false
  end.

(** The events fetch adds to an empty record. *)
Definition fetch_events (w : env) : list event :=
  snd (fetch_jobs_from_notion w []).

Definition fetched_jobs (w : env) : list pyval :=
  match fst (fetch_jobs_from_notion w []) with
  | Ok (PList jobs) => jobs
  | _ => []
  end.

(** * Properties *)

(** ** Text of values on samples *)

Example int_str_samples :
  int_str 0 = "0" /\ int_str 4300 = "4300" /\ int_str (-7) = "-7".
Proof. repeat split. Qed.

Example str_repr_escapes :
  str_repr ("a" ++ nl ++ str1 bslash ++ str1 (ascii_of_nat 233))
  = "'a" ++ str1 bslash ++ "n" ++ str1 bslash ++ str1 bslash
      ++ str1 (ascii_of_nat 233) ++ "'".
Proof. reflexivity. Qed.

Example json_str_escapes :
  json_str ("a" ++ nl ++ str1 dquote ++ str1 (ascii_of_nat 233))
  = str1 dquote ++ "a" ++ str1 bslash ++ "n" ++ str1 bslash ++ str1 dquote
      ++ str1 bslash ++ "u00e9" ++ str1 dquote.
Proof. reflexivity. Qed.

Example repr_profile :
  str (PDict [("name", PStr "Al"); ("skills", PStr "it's")])
  = "{'name': 'Al', 'skills': " ++ str1 dquote ++ "it's" ++ str1 dquote ++ "}".
Proof. reflexivity. Qed.

Example dumps_listing :
  dumps (PList [PDict [("role", PStr "A - B"); ("n", PInt (-12)); ("x", PNone)]])
  = "[{" ++ str1 dquote ++ "role" ++ str1 dquote ++ ": " ++ str1 dquote ++ "A - B"
     ++ str1 dquote ++ ", " ++ str1 dquote ++ "n" ++ str1 dquote ++ ": -12, "
     ++ str1 dquote ++ "x" ++ str1 dquote ++ ": null}]".
Proof. reflexivity. Qed.

(** ** Listing repository: fetch *)

Section Fetch.

Variable w : env.
Variable log : list event.

(** The shape of every run of fetch: one request goes out, and the answer
    decides the rest. *)
Lemma fetch_unfold :
  fetch_jobs_from_notion w log =
  match requests_post w (fetch_request w) with
  | Raise e =>
      (Ok (PList []),
       (log ++ [Posted (fetch_request w)]) ++ [StError (ConnectionFailed e)])%list
  | Ok r =>
      if status_code r =? 401 then
        (Ok (PList []),
         (log ++ [Posted (fetch_request w)]) ++ [StError AuthenticationError])%list
      else
        match (data <- json r ;;
               results <- get data "results" (PList []) ;;
               pages <- iter results ;;
               for_pages pages [])%res with
        | Ok jobs => (Ok (PList jobs), (log ++ [Posted (fetch_request w)])%list)
        | Raise e =>
            (Ok (PList []),
             (log ++ [Posted (fetch_request w)]) ++ [StError (ConnectionFailed e)])%list
        end
  end.
Proof.
  unfold fetch_jobs_from_notion, fetch_request. io_unfold. cbn.
  destruct (requests_post w _) as [r | e]; [ | reflexivity ].
  destruct (status_code r =? 401); [ reflexivity | ].
  destruct (json r) as [data | e]; [ | reflexivity ]. cbn.
  destruct (get data "results" (PList [])) as [results | e]; [ | reflexivity ]. cbn.
  destruct (iter results) as [pages | e]; [ | reflexivity ]. cbn.
  destruct (for_pages pages []); reflexivity.
Qed.

(** fetch always returns a list to its caller. *)
Lemma fetch_never_raises :
  exists jobs, fst (fetch_jobs_from_notion w log) = Ok (PList jobs).
Proof.
  rewrite fetch_unfold.
  destruct (requests_post w _) as [r | e]; [ | now exists [] ].
  destruct (status_code r =? 401); [ now exists [] | ].
  destruct (_ <- json r ;; _)%res as [jobs | e]; [ now exists jobs | now exists [] ].
Qed.

End Fetch.

(** *** Extraction of one column *)

Lemma first_plain_text_well_formed props name kind default :
  well_formed_column props name kind = true ->
  first_plain_text (PDict props) name kind default
  = Ok (PStr (Documented.field props name kind default)).
Proof.
  unfold well_formed_column, first_plain_text, Documented.field,
    Documented.fragments. cbn.
  destruct (lookup name props) as [prop | ]; [ | reflexivity ].
  destruct prop as [ | | | | | | prop]; cbn; try discriminate.
  destruct (lookup kind prop) as [frags | ]; [ | reflexivity ].
  destruct frags as [ | | | | | frags | ]; try discriminate.
  destruct frags as [ | frag frags]; [ reflexivity | ]. cbn.
  intros H. apply andb_prop in H as [H _].
  destruct frag as [ | | | | | | frag]; cbn in *; try discriminate.
  destruct (lookup "plain_text" frag) as [v | ]; [ | discriminate ].
  destruct v; try discriminate. reflexivity.
Qed.

Lemma field_default props name kind default :
  no_fragment props name kind = true ->
  Documented.field props name kind default = default.
Proof.
  unfold no_fragment, Documented.field, Documented.fragments.
  destruct (lookup name props) as [prop | ]; [ | reflexivity ].
  destruct prop as [ | | | | | | prop]; try discriminate.
  destruct (lookup kind prop) as [frags | ]; [ | reflexivity ].
  destruct frags as [ | | | | | frags | ]; try discriminate.
  destruct frags; [ reflexivity | discriminate ].
Qed.

Lemma first_plain_text_default props name kind default :
  no_fragment props name kind = true ->
  first_plain_text (PDict props) name kind default = Ok (PStr default).
Proof.
  unfold no_fragment, first_plain_text. cbn.
  destruct (lookup name props) as [prop | ]; [ | reflexivity ].
  destruct prop as [ | | | | | | prop]; try discriminate. cbn.
  destruct (lookup kind prop) as [frags | ]; [ | reflexivity ].
  destruct frags as [ | | | | | frags | ]; try discriminate.
  destruct frags; [ reflexivity | discriminate ].
Qed.

(** *** Extraction of one page *)

Lemma extract_job_well_formed page :
  well_formed_page page = true ->
  extract_job page = Ok (Documented.listing page).
Proof.
  destruct page as [ | | | | | | kvs]; try discriminate.
  unfold well_formed_page, extract_job, Documented.listing,
    Documented.properties_of. cbn [get rbind].
  destruct (lookup "properties" kvs) as [props | ].
  - destruct props as [ | | | | | | props]; try discriminate.
    intros H.
    repeat (apply andb_prop in H as [H ?]).
    rewrite !first_plain_text_well_formed by assumption.
    reflexivity.
  - intros _. reflexivity.
Qed.

(** *** The loop *)

Lemma for_pages_all_ok (f : pyval -> pyval) pages :
  (forall page, In page pages -> extract_job page = Ok (f page)) ->
  forall jobs, for_pages pages jobs = Ok (jobs ++ map f pages)%list.
Proof.
  induction pages as [ | page rest IH]; intros Hok jobs; cbn.
  - now rewrite app_nil_r.
  - rewrite (Hok page) by now left. cbn.
    rewrite IH by (intros p Hp; apply Hok; now right).
    now rewrite <- app_assoc.
Qed.

Lemma for_pages_some_raise pages :
  (exists page e, In page pages /\ extract_job page = Raise e) ->
  forall jobs, exists e, for_pages pages jobs = Raise e.
Proof.
  induction pages as [ | page rest IH]; intros (bad & e & Hin & Hbad) jobs.
  - destruct Hin.
  - cbn. destruct (extract_job page) as [job | e'] eqn:Hpage; cbn.
    + destruct Hin as [-> | Hin]; [ congruence | ].
      apply IH. now exists bad, e.
    + now exists e'.
Qed.

(** A successful loop yields one job per page, each the extraction of the
    page at the same position. *)
Lemma for_pages_ok_inv pages :
  forall jobs out,
    for_pages pages jobs = Ok out ->
    exists new,
      out = (jobs ++ new)%list
      /\ Forall2 (fun page job => extract_job page = Ok job) pages new.
Proof.
  induction pages as [ | page rest IH]; intros jobs out; cbn.
  - intros [= <-]. exists []. now rewrite app_nil_r.
  - destruct (extract_job page) as [job | e] eqn:Hpage; cbn; [ | discriminate ].
    intros H. apply IH in H as (new & -> & Hall).
    exists (job :: new). split.
    + now rewrite <- app_assoc.
    + now constructor.
Qed.

(** ** Claims on fetch *)

(** C3: fetch returns the empty list, and so does not raise, when the
    transport call throws, when the body is not valid JSON, and on
    HTTP 401. *)
Theorem fetch_failure_gives_empty (w : env) (log : list event) :
  fetch_failure w ->
  fst (fetch_jobs_from_notion w log) = Ok (PList []).
Proof.
  intros H. rewrite fetch_unfold.
  destruct H as [e H | r e H Hjson | r H Hstatus]; rewrite H.
  - reflexivity.
  - destruct (status_code r =? 401); [ reflexivity | ].
    rewrite Hjson. reflexivity.
  - rewrite Hstatus. reflexivity.
Qed.

Lemma fetch_failure_gives_empty_witness :
  fst (fetch_jobs_from_notion
         (world_answering (Raise (RequestException "timed out"))) [])
  = Ok (PList [])
  /\ fst (fetch_jobs_from_notion
            (world_answering
               (Ok {| status_code := 200; text := "<html>"; json := Raise ValueError |}))
            [])
     = Ok (PList [])
  /\ fst (fetch_jobs_from_notion
            (world_answering (Ok (json_response 401 (PDict [])))) [])
     = Ok (PList []).
Proof.
  split; [ | split ].
  - apply fetch_failure_gives_empty.
    eapply transport_throws. reflexivity.
  - apply fetch_failure_gives_empty.
    eapply body_not_json; reflexivity.
  - apply fetch_failure_gives_empty.
    eapply unauthorized; reflexivity.
Defined.

(** C7: on a successful response whose results array holds well-formed
    pages, fetch returns the listing of each page, one per page, in the
    order of the array. *)
Theorem fetch_one_listing_per_page
  (w : env) (log : list event) (r : response)
  (data : list (string * pyval)) (pages : list pyval) :
  requests_post w (fetch_request w) = Ok r ->
  status_code r = 200 ->
  json r = Ok (PDict data) ->
  lookup "results" data = Some (PList pages) ->
  forallb well_formed_page pages = true ->
  fst (fetch_jobs_from_notion w log)
  = Ok (PList (map Documented.listing pages)).
Proof.
  intros Hpost Hstatus Hjson Hresults Hpages.
  rewrite fetch_unfold, Hpost, Hstatus, Hjson. cbn.
  rewrite Hresults. cbn.
  rewrite (for_pages_all_ok Documented.listing).
  - reflexivity.
  - intros page Hin. apply extract_job_well_formed.
    rewrite forallb_forall in Hpages. now apply Hpages.
Qed.

Lemma fetch_one_listing_per_page_witness :
  fst (fetch_jobs_from_notion
         (world_answering
            (Ok (json_response 200
                   (query_result [intern_page; PDict []; intern_page]))))
         [])
  = Ok (PList (map Documented.listing [intern_page; PDict []; intern_page])).
Proof.
  eapply fetch_one_listing_per_page; reflexivity.
Defined.

(** C8: a response with one page whose Title starts with the fragment
    "Intern", whose Role starts with "Backend" and that has no other
    property gives exactly one listing, "Intern - Backend" at "Unknown"
    with empty skills and description. *)
Theorem fetch_intern_scenario
  (w : env) (log : list event) (r : response)
  (more_title more_role : list pyval) :
  requests_post w (fetch_request w) = Ok r ->
  status_code r = 200 ->
  json r =
    Ok (PDict [("results",
                 PList [PDict [("properties",
                   PDict [ ("Title",
                             PDict [("title",
                                      PList (fragment "Intern" :: more_title))]);
                           ("Role",
                             PDict [("rich_text",
                                      PList (fragment "Backend" :: more_role))]) ])]])]) ->
  fst (fetch_jobs_from_notion w log)
  = Ok (PList [PDict [ ("role", PStr "Intern - Backend");
                       ("company", PStr "Unknown");
                       ("skills", PStr "");
                       ("description", PStr "") ]]).
Proof.
  intros Hpost Hstatus Hjson.
  rewrite fetch_unfold, Hpost, Hstatus, Hjson. reflexivity.
Qed.

Lemma fetch_intern_scenario_witness :
  fst (fetch_jobs_from_notion
         (world_answering
            (Ok (json_response 200 (PDict [("results", PList [intern_page])]))))
         [])
  = Ok (PList [PDict [ ("role", PStr "Intern - Backend");
                       ("company", PStr "Unknown");
                       ("skills", PStr "");
                       ("description", PStr "") ]]).
Proof.
  eapply (fetch_intern_scenario _ _ _ [] []); reflexivity.
Defined.

(** C10: when the extraction of one page of the results raises, fetch
    returns the empty list: the listings of the other pages are dropped
    with it. *)
Theorem fetch_all_or_nothing
  (w : env) (log : list event) (r : response)
  (data : list (string * pyval)) (pages : list pyval) (bad : pyval) (e : exn) :
  requests_post w (fetch_request w) = Ok r ->
  status_code r <> 401 ->
  json r = Ok (PDict data) ->
  lookup "results" data = Some (PList pages) ->
  In bad pages ->
  extract_job bad = Raise e ->
  fst (fetch_jobs_from_notion w log) = Ok (PList []).
Proof.
  intros Hpost Hstatus Hjson Hresults Hin Hbad.
  rewrite fetch_unfold, Hpost.
  apply Z.eqb_neq in Hstatus. rewrite Hstatus, Hjson. cbn.
  rewrite Hresults. cbn.
  destruct (for_pages_some_raise pages) with (jobs := @nil pyval) as [e' ->].
  - now exists bad, e.
  - reflexivity.
Qed.

Lemma fetch_all_or_nothing_witness :
  extract_job intern_page
  = Ok (PDict [ ("role", PStr "Intern - Backend");
                ("company", PStr "Unknown");
                ("skills", PStr "");
                ("description", PStr "") ])
  /\ fst (fetch_jobs_from_notion
            (world_answering
               (Ok (json_response 200
                      (query_result [intern_page; page_without_plain_text]))))
            [])
     = Ok (PList []).
Proof.
  split; [ reflexivity | ].
  eapply (fetch_all_or_nothing _ _ _ _ _ page_without_plain_text KeyError);
    try reflexivity.
  - discriminate.
  - right. left. reflexivity.
Defined.

Lemma first_plain_text_falls_back props name kind default v :
  first_plain_text (PDict props) name kind default = Ok v ->
  falls_back props name kind = true ->
  v = PStr default.
Proof.
  unfold first_plain_text, falls_back. cbn.
  destruct (lookup name props) as [prop | ]; cbn.
  - destruct prop as [ | | | | | | prop]; cbn; try discriminate.
    destruct (lookup kind prop) as [frags | ]; cbn.
    + intros Hv Hfalsy. apply negb_true_iff in Hfalsy.
      rewrite Hfalsy in Hv. now injection Hv as <-.
    + now intros [= <-].
  - now intros [= <-].
Qed.

(** What [page.get("properties", {})] is on a page whose extraction
    returns. *)
Lemma extract_job_props page job :
  extract_job page = Ok job ->
  get page "properties" (PDict []) = Ok (PDict (Documented.properties_of page)).
Proof.
  unfold extract_job, Documented.properties_of.
  destruct page as [ | | | | | | kvs]; cbn; try discriminate.
  destruct (lookup "properties" kvs) as [props | ]; [ | reflexivity ].
  destruct props; cbn; try discriminate. reflexivity.
Qed.

(** C1, amended: on every page whose extraction returns a listing, the
    listing has its four fields, its role line is the text of the title
    and role values joined by " - ", and each of the five extracted values
    is its documented default when its column falls back (property
    missing, or its entry for its type missing or falsy). *)
Theorem fields_default_without_fragment (page job : pyval) :
  extract_job page = Ok job ->
  exists job_title role_detail company skills desc : pyval,
    job = PDict [ ("role", PStr (str job_title ++ " - " ++ str role_detail));
                  ("company", company);
                  ("skills", skills);
                  ("description", desc) ]
    /\ (falls_back (Documented.properties_of page) "Title" "title" = true ->
        job_title = PStr "Untitled")
    /\ (falls_back (Documented.properties_of page) "Role" "rich_text" = true ->
        role_detail = PStr "")
    /\ (falls_back (Documented.properties_of page) "Company" "rich_text" = true ->
        company = PStr "Unknown")
    /\ (falls_back (Documented.properties_of page) "Required Skills" "rich_text"
        = true -> skills = PStr "")
    /\ (falls_back (Documented.properties_of page) "Description" "rich_text"
        = true -> desc = PStr "").
Proof.
  intros Hjob. pose proof (extract_job_props page job Hjob) as Hprops.
  revert Hjob. unfold extract_job. rewrite Hprops. cbn [rbind].
  set (props := Documented.properties_of page).
  destruct (first_plain_text (PDict props) "Title" "title" "Untitled")
    as [job_title | ] eqn:Ht; cbn [rbind]; [ | discriminate ].
  destruct (first_plain_text (PDict props) "Role" "rich_text" "")
    as [role_detail | ] eqn:Hr; cbn [rbind]; [ | discriminate ].
  destruct (first_plain_text (PDict props) "Company" "rich_text" "Unknown")
    as [company | ] eqn:Hc; cbn [rbind]; [ | discriminate ].
  destruct (first_plain_text (PDict props) "Required Skills" "rich_text" "")
    as [skills | ] eqn:Hs; cbn [rbind]; [ | discriminate ].
  destruct (first_plain_text (PDict props) "Description" "rich_text" "")
    as [desc | ] eqn:Hd; cbn [rbind]; [ | discriminate ].
  intros [= <-].
  exists job_title, role_detail, company, skills, desc.
  split; [ reflexivity | ].
  repeat split; intros Hfb;
    eapply first_plain_text_falls_back; eassumption.
Qed.

Lemma fields_default_without_fragment_witness :
  exists job_title role_detail company skills desc : pyval,
    PDict [ ("role", PStr "Untitled - "); ("company", PNone);
            ("skills", PStr ""); ("description", PStr "") ]
    = PDict [ ("role", PStr (str job_title ++ " - " ++ str role_detail));
              ("company", company);
              ("skills", skills);
              ("description", desc) ]
    /\ job_title = PStr "Untitled" /\ role_detail = PStr ""
    /\ skills = PStr "" /\ desc = PStr "".
Proof.
  destruct (fields_default_without_fragment page_with_null_plain_text _ eq_refl)
    as (job_title & role_detail & company & skills & desc
        & Hjob & Ht & Hr & _ & Hs & Hd).
  exists job_title, role_detail, company, skills, desc.
  split; [ exact Hjob | ].
  split; [ apply Ht; reflexivity | ].
  split; [ apply Hr; reflexivity | ].
  split; [ apply Hs; reflexivity | apply Hd; reflexivity ].
Defined.

(** A title entry that is null, 0, an empty string or an empty object
    gives the default as an empty list does. *)
Example falsy_entries_fall_back :
  extract_job
    (PDict [("properties",
              PDict [ ("Title", PDict [("title", PNone)]);
                      ("Role", PDict [("rich_text", PInt 0)]);
                      ("Company", PDict [("rich_text", PStr "")]);
                      ("Required Skills", PDict [("rich_text", PDict [])]);
                      ("Description", PDict [("rich_text", PBool false)]) ])])
  = Ok (PDict [ ("role", PStr "Untitled - ");
                ("company", PStr "Unknown");
                ("skills", PStr "");
                ("description", PStr "") ]).
Proof. reflexivity. Qed.

(** The same page with an empty Title list and no Role entry: both parts
    of the role line are defaults. *)
Example untitled_role_line :
  extract_job
    (PDict [("properties",
              PDict [ ("Title", PDict [("title", PList [])]);
                      ("Role", PDict [("type", PStr "rich_text")]) ])])
  = Ok (PDict [ ("role", PStr "Untitled - ");
                ("company", PStr "Unknown");
                ("skills", PStr "");
                ("description", PStr "") ]).
Proof. reflexivity. Qed.

(** C1 as stated fails: a Company fragment whose [plain_text] is null is
    truthy as a list, its first element has the key, and the null goes
    into the listing unchanged. *)
Lemma null_plain_text_reaches_listing :
  fst (fetch_jobs_from_notion
         (world_answering
            (Ok (json_response 200 (query_result [page_with_null_plain_text]))))
         [])
  = Ok (PList [PDict [ ("role", PStr "Untitled - ");
                       ("company", PNone);
                       ("skills", PStr "");
                       ("description", PStr "") ]])
  /\ ~ every_field_is_a_string.
Proof.
  split; [ reflexivity | ].
  intros H.
  destruct (H (world_answering
                 (Ok (json_response 200 (query_result [page_with_null_plain_text]))))
              [] _ _ "company" eq_refl (or_introl eq_refl))
    as [s Hs].
  - right. left. reflexivity.
  - discriminate Hs.
Qed.

(** A Company fragment without [plain_text] does not give the default
    either: the lookup raises [KeyError] and no listing is returned. *)
Example missing_plain_text_gives_no_listing :
  extract_job page_without_plain_text = Raise KeyError
  /\ fst (fetch_jobs_from_notion
            (world_answering
               (Ok (json_response 200 (query_result [page_without_plain_text]))))
            [])
     = Ok (PList []).
Proof. split; reflexivity. Qed.

(** A property that is not an object stops the extraction as well. *)
Example null_property_raises :
  extract_job (PDict [("properties", PDict [("Title", PNone)])])
  = Raise AttributeError.
Proof. reflexivity. Qed.

(** ** Listing repository: create *)

(** The shape of every run of create. *)
Lemma post_job_unfold
  (w : env) (log : list event)
  (title role_detail company skills description contact : pyval) :
  post_job_to_notion title role_detail company skills description contact w log
  = let req :=
      create_request w title role_detail company skills description contact in
    match requests_post w req with
    | Ok r =>
        if status_code r =? 200 then
          (Ok (PBool true), (log ++ [Posted req])%list)
        else
          (Ok (PBool false),
           (log ++ [Posted req; StError (FailedToPost (text r))])%list)
    | Raise e =>
        (Ok (PBool false),
         (log ++ [Posted req; StError (ConnectionFailed e)])%list)
    end.
Proof.
  unfold post_job_to_notion, post. io_unfold.
  fold (create_request w title role_detail company skills description contact).
  cbv zeta beta.
  destruct (requests_post w _) as [r | e]; cbv beta iota.
  - destruct (status_code r =? 200); [ reflexivity | ].
    cbv beta iota. now rewrite <- app_assoc.
  - now rewrite <- app_assoc.
Qed.

(** C2: create, on six strings, sends one request whose body is the parent
    database and the documented property map, returns [True] exactly when
    the transport answers with status 200, and returns [False] for every
    other status and when the transport raises. *)
Theorem post_job_true_iff_200
  (w : env) (log : list event)
  (title role_detail company skills description contact : string) :
  let req :=
    {| req_url := "https://api.notion.com/v1/pages";
       req_headers := notion_headers w;
       req_json :=
         PDict [ ("parent", PDict [("database_id", NOTION_DATABASE_ID w)]);
                 ("properties",
                   Documented.property_map
                     title role_detail company skills description contact) ] |} in
  exists (b : bool) (shown : list event),
    post_job_to_notion (PStr title) (PStr role_detail) (PStr company)
      (PStr skills) (PStr description) (PStr contact) w log
    = (Ok (PBool b), (log ++ Posted req :: shown)%list)
    /\ existsb is_posted shown = false
    /\ (b = true <->
        exists r, requests_post w req = Ok r /\ status_code r = 200).
Proof.
  intros req. rewrite post_job_unfold.
  change (create_request w (PStr title) (PStr role_detail) (PStr company)
            (PStr skills) (PStr description) (PStr contact)) with req.
  cbv zeta.
  destruct (requests_post w req) as [r | e] eqn:Hpost.
  - destruct (status_code r =? 200) eqn:Hstatus.
    + exists true, []. split; [ reflexivity | ]. split; [ reflexivity | ].
      split; [ | reflexivity ].
      intros _. exists r. split; [ reflexivity | now apply Z.eqb_eq ].
    + exists false, [StError (FailedToPost (text r))].
      split; [ reflexivity | ]. split; [ reflexivity | ].
      split; [ discriminate | ].
      intros (r' & [= <-] & H200). apply Z.eqb_neq in Hstatus. contradiction.
  - exists false, [StError (ConnectionFailed e)].
    split; [ reflexivity | ]. split; [ reflexivity | ].
    split; [ discriminate | ].
    intros (r' & [=] & _).
Qed.

(** C6 on the code: create has six parameters and none has a default, so
    the call with five arguments raises [TypeError] when the arguments are
    bound; no request is sent, whatever the transport would answer. *)
Theorem create_with_five_arguments_raises (w : env) (log : list event) :
  call_post_job_to_notion
    [ PStr "Dev"; PStr "Acme"; PStr "Python, SQL"; PStr "Build things";
      PStr "a@b.com" ] w log
  = (Raise TypeError, log).
Proof. reflexivity. Qed.

(** With a sixth argument and a transport answering 400 the same call
    returns [False]. *)
Example create_with_six_arguments_400 :
  fst (call_post_job_to_notion
         [ PStr "Dev"; PStr "Dev role"; PStr "Acme"; PStr "Python, SQL";
           PStr "Build things"; PStr "a@b.com" ]
         (world_answering
            (Ok {| status_code := 400; text := "validation_error";
                   json := Raise ValueError |}))
         [])
  = Ok (PBool false).
Proof. reflexivity. Qed.

(** ** Recruiter call site *)

(** C5: with the required inputs filled, the button calls the function
    bound to [post_job_to_notion] with the list (role_title, company_name,
    req_skills, job_desc, contact_info); against the parameter list of
    line 128 the Job Role / Title input fills [title] and the Company Name
    input fills [role_detail], and these are the slots the body reads:
    with the missing sixth argument supplied, create runs with the role
    title as its title and the company name as its role detail. *)
Theorem call_site_slots
  (create : list pyval -> io pyval)
  (company_name role_title contact_info req_skills job_desc : pyval)
  (w : env) (log : list event) :
  truthy company_name = true ->
  truthy role_title = true ->
  truthy req_skills = true ->
  post_job_clicked_on create company_name role_title contact_info req_skills
    job_desc w log
  = after_post_job
      (create [role_title; company_name; req_skills; job_desc; contact_info])
      w log
  /\ post_job_clicked company_name role_title contact_info req_skills job_desc
       w log
     = after_post_job
         (call_post_job_to_notion
            [role_title; company_name; req_skills; job_desc; contact_info])
         w log
  /\ lookup "title"
       (positional post_job_to_notion_params
          [role_title; company_name; req_skills; job_desc; contact_info])
     = Some role_title
  /\ lookup "role_detail"
       (positional post_job_to_notion_params
          [role_title; company_name; req_skills; job_desc; contact_info])
     = Some company_name
  /\ (forall contact,
        call_post_job_to_notion
          [role_title; company_name; req_skills; job_desc; contact_info;
           contact] w log
        = post_job_to_notion role_title company_name req_skills job_desc
            contact_info contact w log).
Proof.
  intros Hc Hr Hs.
  unfold post_job_clicked, post_job_clicked_on, post_job_call_args.
  rewrite Hc, Hr, Hs. cbn [andb].
  repeat split; reflexivity.
Qed.

(** A probe bound to the name records the list it is called with. *)
Lemma call_site_slots_witness :
  post_job_clicked_on
    (fun args => (post "probe" [] (PList args) ;;; ret (PBool false))%io)
    (PStr "Acme") (PStr "Dev") (PStr "a@b.com") (PStr "Python, SQL")
    (PStr "Build things")
    (world_answering (Ok (json_response 200 PNone))) []
  = (Ok tt,
     [Posted {| req_url := "probe"; req_headers := [];
                req_json :=
                  PList [ PStr "Dev"; PStr "Acme"; PStr "Python, SQL";
                          PStr "Build things"; PStr "a@b.com" ] |}]).
Proof.
  rewrite (proj1 (call_site_slots _ (PStr "Acme") (PStr "Dev") (PStr "a@b.com")
                    (PStr "Python, SQL") (PStr "Build things") _ []
                    eq_refl eq_refl eq_refl)).
  reflexivity.
Defined.

(** The remaining slots, and the one left empty. *)
Lemma call_site_other_slots
  (company_name role_title contact_info req_skills job_desc : pyval) :
  let bound :=
    positional post_job_to_notion_params
      (post_job_call_args company_name role_title contact_info req_skills
         job_desc) in
  lookup "company" bound = Some req_skills
  /\ lookup "skills" bound = Some job_desc
  /\ lookup "description" bound = Some contact_info
  /\ lookup "contact" bound = None.
Proof. repeat split; reflexivity. Qed.

(** Pressing Post Job with the three required inputs filled reaches the
    call of line 215, which raises before any request is sent. *)
Lemma post_job_clicked_raises
  (company_name role_title contact_info req_skills job_desc : pyval)
  (w : env) (log : list event) :
  truthy company_name = true ->
  truthy role_title = true ->
  truthy req_skills = true ->
  post_job_clicked company_name role_title contact_info req_skills job_desc
    w log
  = (Raise TypeError, log).
Proof.
  intros Hc Hr Hs. unfold post_job_clicked, post_job_clicked_on.
  rewrite Hc, Hr, Hs. reflexivity.
Qed.

(** ** Guidance generator *)

(** The shape of every run of generate. *)
Lemma guidance_unfold
  (student_profile job_market_data : pyval) (w : env) (log : list event) :
  get_career_guidance student_profile job_market_data w log
  = match guidance_prompt student_profile job_market_data with
    | Raise e => (Raise e, log)
    | Ok prompt =>
        match model w with
        | None => (Ok fallback_report, log)
        | Some g =>
            match (r <- g prompt ;; gen_text r)%res with
            | Ok t => (Ok t, (log ++ [Prompted prompt])%list)
            | Raise _ => (Ok fallback_report, (log ++ [Prompted prompt])%list)
            end
        end
    end.
Proof.
  unfold get_career_guidance. io_unfold.
  destruct (guidance_prompt student_profile job_market_data) as [prompt | e];
    [ | reflexivity ].
  cbv beta iota.
  destruct (model w) as [g | ]; [ | reflexivity ]. cbv beta iota.
  destruct (g prompt) as [r | e]; [ | reflexivity ]. cbv beta iota.
  unfold rbind. destruct (gen_text r); reflexivity.
Qed.

(** The printers accept every value made of strings only. *)
Lemma profile_prints (s_name s_skills s_interests : string) :
  prints (PDict [ ("name", PStr s_name); ("skills", PStr s_skills);
                  ("interests", PStr s_interests) ]) = true.
Proof. reflexivity. Qed.

Lemma listings_print (listings : list (string * string * string * string)) :
  prints (PList (map (fun '(t, c, s, d) => listing_dict t c s d) listings))
  = true.
Proof.
  cbn. induction listings as [ | [[[t c] sk] d] rest IH]; [ reflexivity | ].
  cbn. exact IH.
Qed.

(** On a profile and listings of the documented types (section 3 of the
    spec: every field a string) the prompt is always built. *)
Lemma guidance_prompt_of_strings
  (s_name s_skills s_interests : string)
  (listings : list (string * string * string * string)) :
  exists prompt,
    guidance_prompt
      (PDict [ ("name", PStr s_name); ("skills", PStr s_skills);
               ("interests", PStr s_interests) ])
      (PList (map (fun '(t, c, s, d) => listing_dict t c s d) listings))
    = Ok prompt.
Proof.
  unfold guidance_prompt, str_of, json_dumps.
  rewrite profile_prints, listings_print. cbn [rbind]. now eexists.
Qed.

(** C4: whenever the model call throws, generate returns the fixed
    fallback string, whatever the profile and the listings the prompt was
    built from. *)
Theorem guidance_fallback_on_failure
  (student_profile job_market_data : pyval) (w : env) (log : list event)
  (prompt : string) :
  guidance_prompt student_profile job_market_data = Ok prompt ->
  model_call_throws w prompt ->
  fst (get_career_guidance student_profile job_market_data w log)
  = Ok "Sorry, I couldn't generate an analysis at this moment.".
Proof.
  intros Hprompt H. rewrite guidance_unfold, Hprompt.
  destruct H as [Hm | g e Hm Hg | g r e Hm Hg Ht]; rewrite Hm.
  - reflexivity.
  - rewrite Hg. reflexivity.
  - rewrite Hg. unfold rbind. rewrite Ht. reflexivity.
Qed.

Lemma guidance_fallback_on_failure_witness :
  fst (get_career_guidance sample_profile
         (PList [listing_dict "Intern - Backend" "Unknown" "" ""])
         (world_with_model (Raise (OtherException "quota exceeded"))) [])
  = Ok "Sorry, I couldn't generate an analysis at this moment."
  /\ fst (get_career_guidance sample_profile (PList [])
            (world_answering (Raise (RequestException "offline"))) [])
     = Ok "Sorry, I couldn't generate an analysis at this moment.".
Proof.
  split.
  - eapply guidance_fallback_on_failure; [ reflexivity | ].
    eapply generate_content_raises; reflexivity.
  - eapply guidance_fallback_on_failure; [ reflexivity | ].
    apply model_unbound. reflexivity.
Defined.

(** C9: two invocations of generate on the same profile and listings, in
    any two worlds with a bound model and after any two histories, build
    the same prompt: either both submit it, one prompt each and the same
    string, or the f-string raises the same exception in both and nothing
    is submitted. *)
Theorem prompt_is_deterministic
  (student_profile job_market_data : pyval)
  (w1 w2 : env) (log1 log2 : list event)
  (g1 g2 : string -> result generation) :
  model w1 = Some g1 ->
  model w2 = Some g2 ->
  (exists prompt,
     guidance_prompt student_profile job_market_data = Ok prompt
     /\ snd (get_career_guidance student_profile job_market_data w1 log1)
        = (log1 ++ [Prompted prompt])%list
     /\ snd (get_career_guidance student_profile job_market_data w2 log2)
        = (log2 ++ [Prompted prompt])%list)
  \/ (exists e,
        guidance_prompt student_profile job_market_data = Raise e
        /\ get_career_guidance student_profile job_market_data w1 log1
           = (Raise e, log1)
        /\ get_career_guidance student_profile job_market_data w2 log2
           = (Raise e, log2)).
Proof.
  intros H1 H2. rewrite !guidance_unfold, H1, H2.
  destruct (guidance_prompt student_profile job_market_data) as [prompt | e].
  - left. exists prompt. split; [ reflexivity | ]. split.
    + destruct (_ <- g1 _ ;; _)%res; reflexivity.
    + destruct (_ <- g2 _ ;; _)%res; reflexivity.
  - right. exists e. repeat split.
Qed.

Lemma prompt_is_deterministic_witness :
  (exists prompt,
     guidance_prompt sample_profile (PList []) = Ok prompt
     /\ snd (get_career_guidance sample_profile (PList [])
               (world_with_model (Ok {| gen_text := Ok "## Match Analysis" |}))
               [])
        = [Prompted prompt]
     /\ snd (get_career_guidance sample_profile (PList [])
               (world_with_model (Raise (OtherException "quota exceeded")))
               [StWarning "earlier"])
        = [StWarning "earlier"; Prompted prompt])
  \/ (exists e,
        guidance_prompt sample_profile (PList []) = Raise e
        /\ get_career_guidance sample_profile (PList [])
             (world_with_model (Ok {| gen_text := Ok "## Match Analysis" |})) []
           = (Raise e, [])
        /\ get_career_guidance sample_profile (PList [])
             (world_with_model (Raise (OtherException "quota exceeded")))
             [StWarning "earlier"]
           = (Raise e, [StWarning "earlier"])).
Proof.
  eapply (prompt_is_deterministic sample_profile (PList []) _ _ [] [_]);
    reflexivity.
Defined.

(** The prompt of the empty-database scenario: the profile is printed as a
    dict and the listings as an empty JSON array. *)
Example prompt_of_empty_market :
  guidance_prompt sample_profile (PList [])
  = Ok (prompt_intro
          ++ "{'name': 'Asha', 'skills': 'Python', 'interests': 'Data'}"
          ++ prompt_market ++ "[]" ++ prompt_output).
Proof. reflexivity. Qed.

(** An int of 4301 digits among the listings: the f-string raises and the
    exception leaves generate, also when the model is not bound. *)
Example guidance_raises_on_long_int :
  get_career_guidance sample_profile
    (PList [PDict [("description", PInt (10 ^ 4300))]])
    (world_answering (Raise (RequestException "offline"))) []
  = (Raise ValueError, [])
  /\ prints (PInt (10 ^ 4300 - 1)) = true.
Proof. split; vm_compute; reflexivity. Qed.

(** * Further properties of the backend functions *)

(** ** fetch: requests, messages and the shape of the result *)

Lemma extract_job_is_listing page job :
  extract_job page = Ok job -> is_listing job.
Proof.
  unfold extract_job.
  destruct (get page "properties" (PDict [])) as [props | ]; cbn; [ | discriminate ].
  destruct (first_plain_text props "Title" "title" "Untitled")
    as [job_title | ]; cbn; [ | discriminate ].
  destruct (first_plain_text props "Role" "rich_text" "")
    as [role_detail | ]; cbn; [ | discriminate ].
  destruct (first_plain_text props "Company" "rich_text" "Unknown")
    as [company | ]; cbn; [ | discriminate ].
  destruct (first_plain_text props "Required Skills" "rich_text" "")
    as [skills | ]; cbn; [ | discriminate ].
  destruct (first_plain_text props "Description" "rich_text" "")
    as [desc | ]; cbn; [ | discriminate ].
  intros [= <-]. now eexists _, _, _, _.
Qed.

(** The result and the events of a run do not depend on the events
    recorded before it. *)
Lemma fetch_frame (w : env) (log : list event) :
  fetch_jobs_from_notion w log
  = (fst (fetch_jobs_from_notion w []), (log ++ fetch_events w)%list).
Proof.
  unfold fetch_events. rewrite !fetch_unfold.
  destruct (requests_post w _) as [r | e]; cbn.
  - destruct (status_code r =? 401); cbn.
    + now rewrite <- app_assoc.
    + destruct (_ <- json r ;; _)%res; cbn; [ reflexivity | ].
      now rewrite <- app_assoc.
  - now rewrite <- app_assoc.
Qed.

(** Every run of fetch returns a list after recording its request. *)
Lemma fetch_one_request_shape (w : env) (log : list event) :
  exists (jobs : list pyval) (shown : list event),
    fetch_jobs_from_notion w log
    = (Ok (PList jobs), (log ++ Posted (fetch_request w) :: shown)%list).
Proof.
  rewrite fetch_unfold.
  destruct (requests_post w _) as [r | e].
  - destruct (status_code r =? 401).
    + exists [], [StError AuthenticationError]. now rewrite <- app_assoc.
    + destruct (_ <- json r ;; _)%res as [jobs | e].
      * now exists jobs, [].
      * exists [], [StError (ConnectionFailed e)]. now rewrite <- app_assoc.
  - exists [], [StError (ConnectionFailed e)]. now rewrite <- app_assoc.
Qed.

(** X1: in every world fetch returns a list, sends exactly one request
    (the query of the configured database, with an empty filter), shows at
    most one message, and returns the empty list whenever it shows one. *)
Theorem fetch_one_request_one_list (w : env) (log : list event) :
  exists (jobs : list pyval) (shown : list event),
    fetch_jobs_from_notion w log
    = (Ok (PList jobs), (log ++ Posted (fetch_request w) :: shown)%list)
    /\ existsb is_posted shown = false
    /\ (shown = [] \/ exists m, shown = [StError m] /\ jobs = []).
Proof.
  rewrite fetch_unfold.
  destruct (requests_post w _) as [r | e].
  - destruct (status_code r =? 401).
    + exists [], [StError AuthenticationError]. rewrite <- app_assoc.
      split; [ reflexivity | ]. split; [ reflexivity | ].
      right. now eexists.
    + destruct (_ <- json r ;; _)%res as [jobs | e].
      * exists jobs, []. split; [ reflexivity | ]. split; [ reflexivity | ].
        now left.
      * exists [], [StError (ConnectionFailed e)]. rewrite <- app_assoc.
        split; [ reflexivity | ]. split; [ reflexivity | ].
        right. now eexists.
  - exists [], [StError (ConnectionFailed e)]. rewrite <- app_assoc.
    split; [ reflexivity | ]. split; [ reflexivity | ].
    right. now eexists.
Qed.

Lemma fetch_ok_listings (w : env) (log : list event) (jobs : list pyval) :
  fst (fetch_jobs_from_notion w log) = Ok (PList jobs) ->
  Forall is_listing jobs.
Proof.
  rewrite fetch_unfold.
  destruct (requests_post w _) as [r | e]; cbn;
    [ | intros [= <-]; constructor ].
  destruct (status_code r =? 401); cbn; [ intros [= <-]; constructor | ].
  destruct (json r) as [data | e]; cbn; [ | intros [= <-]; constructor ].
  destruct (get data "results" (PList [])) as [results | e]; cbn;
    [ | intros [= <-]; constructor ].
  destruct (iter results) as [pages | e]; cbn;
    [ | intros [= <-]; constructor ].
  destruct (for_pages pages []) as [out | e] eqn:Hloop; cbn;
    [ | intros [= <-]; constructor ].
  intros [= <-].
  apply for_pages_ok_inv in Hloop as (new & -> & Hall). cbn.
  induction Hall as [ | page job pages' new' Hjob _ IH]; constructor.
  - now apply extract_job_is_listing with page.
  - exact IH.
Qed.

(** X2: every element of the list fetch returns is a dict with exactly the
    keys role, company, skills and description, in this order, and its role
    is a str; this holds for any response, well formed or not. *)
Theorem fetched_jobs_are_listings
  (w : env) (log : list event) (jobs : list pyval) (job : pyval) :
  fst (fetch_jobs_from_notion w log) = Ok (PList jobs) ->
  In job jobs ->
  exists (role : string) (company skills description : pyval),
    job = PDict [ ("role", PStr role); ("company", company);
                  ("skills", skills); ("description", description) ].
Proof.
  intros Hrun Hin. apply fetch_ok_listings in Hrun.
  rewrite Forall_forall in Hrun. now apply Hrun.
Qed.

Lemma fetched_jobs_are_listings_witness :
  exists (role : string) (company skills description : pyval),
    PDict [ ("role", PStr "Untitled - "); ("company", PNone);
            ("skills", PStr ""); ("description", PStr "") ]
    = PDict [ ("role", PStr role); ("company", company);
              ("skills", skills); ("description", description) ].
Proof.
  apply (fetched_jobs_are_listings
           (world_answering
              (Ok (json_response 200 (query_result [page_with_null_plain_text]))))
           [] _ _ eq_refl).
  now left.
Defined.

(** X3: on a response that is not a 401 and whose body is an object with a
    results array, fetch returns either nothing or one listing per page, in
    the order of the array, each the extraction of its page; no proper
    part of the array is ever returned. *)
Theorem fetch_all_pages_or_none
  (w : env) (log : list event) (r : response)
  (data : list (string * pyval)) (pages : list pyval) :
  requests_post w (fetch_request w) = Ok r ->
  status_code r <> 401 ->
  json r = Ok (PDict data) ->
  lookup "results" data = Some (PList pages) ->
  exists jobs,
    fst (fetch_jobs_from_notion w log) = Ok (PList jobs)
    /\ ((jobs = [] /\ exists bad e, In bad pages /\ extract_job bad = Raise e)
        \/ Forall2 (fun page job => extract_job page = Ok job) pages jobs).
Proof.
  intros Hpost Hstatus Hjson Hresults.
  rewrite fetch_unfold, Hpost.
  apply Z.eqb_neq in Hstatus. rewrite Hstatus, Hjson. cbn.
  rewrite Hresults. cbn.
  destruct (for_pages pages []) as [out | e] eqn:Hloop; cbn.
  - exists out. split; [ reflexivity | ]. right.
    now apply for_pages_ok_inv in Hloop as (new & -> & Hall).
  - exists []. split; [ reflexivity | ]. left. split; [ reflexivity | ].
    clear - Hloop. revert Hloop. generalize (@nil pyval).
    induction pages as [ | page rest IH]; intros acc; cbn; [ discriminate | ].
    destruct (extract_job page) as [job | e'] eqn:Hpage; cbn.
    + intros H. destruct (IH _ H) as (bad & e0 & Hin & Hbad).
      exists bad, e0. split; [ now right | exact Hbad ].
    + intros _. exists page, e'. split; [ now left | exact Hpage ].
Qed.

Lemma fetch_all_pages_or_none_witness :
  exists jobs,
    fst (fetch_jobs_from_notion
           (world_answering
              (Ok (json_response 200
                     (query_result [intern_page; page_with_null_plain_text]))))
           [])
    = Ok (PList jobs)
    /\ ((jobs = []
         /\ exists bad e,
             In bad [intern_page; page_with_null_plain_text]
             /\ extract_job bad = Raise e)
        \/ Forall2 (fun page job => extract_job page = Ok job)
             [intern_page; page_with_null_plain_text] jobs).
Proof.
  eapply fetch_all_pages_or_none; try reflexivity. discriminate.
Defined.

(** X4: a response that is not a 401 and whose body is a JSON object
    without a results entry (the error object of a 400 or a 404, say) is
    taken for an empty database: fetch returns the empty list and shows no
    message. *)
Theorem fetch_error_object_is_silent
  (w : env) (log : list event) (r : response) (data : list (string * pyval)) :
  requests_post w (fetch_request w) = Ok r ->
  status_code r <> 401 ->
  json r = Ok (PDict data) ->
  lookup "results" data = None ->
  fetch_jobs_from_notion w log
  = (Ok (PList []), (log ++ [Posted (fetch_request w)])%list).
Proof.
  intros Hpost Hstatus Hjson Hresults.
  rewrite fetch_unfold, Hpost.
  apply Z.eqb_neq in Hstatus. rewrite Hstatus, Hjson. cbn.
  rewrite Hresults. reflexivity.
Qed.

Lemma fetch_error_object_is_silent_witness :
  let w :=
    world_answering
      (Ok (json_response 404
             (PDict [ ("object", PStr "error"); ("status", PInt 404);
                      ("code", PStr "object_not_found") ]))) in
  fetch_jobs_from_notion w [] = (Ok (PList []), [Posted (fetch_request w)]).
Proof.
  intros w. eapply (fetch_error_object_is_silent w []); try reflexivity.
  discriminate.
Defined.

(** X5: apart from 401 the status of the response is not looked at: two
    responses with the same body give the same listings, so a 500 that
    carries a results array is read like a 200. *)
Theorem fetch_ignores_status
  (w1 w2 : env) (log1 log2 : list event) (r1 r2 : response) :
  requests_post w1 (fetch_request w1) = Ok r1 ->
  requests_post w2 (fetch_request w2) = Ok r2 ->
  status_code r1 <> 401 ->
  status_code r2 <> 401 ->
  json r1 = json r2 ->
  fst (fetch_jobs_from_notion w1 log1) = fst (fetch_jobs_from_notion w2 log2).
Proof.
  intros H1 H2 Hs1 Hs2 Hjson.
  rewrite !fetch_unfold, H1, H2.
  apply Z.eqb_neq in Hs1, Hs2. rewrite Hs1, Hs2, <- Hjson.
  destruct (_ <- json r1 ;; _)%res; reflexivity.
Qed.

Lemma fetch_ignores_status_witness :
  fst (fetch_jobs_from_notion
         (world_answering
            (Ok (json_response 500 (query_result [intern_page])))) [])
  = fst (fetch_jobs_from_notion
           (world_answering
              (Ok (json_response 200 (query_result [intern_page])))) []).
Proof.
  eapply fetch_ignores_status; try reflexivity; discriminate.
Defined.

(** X6: the authentication message is shown exactly when the response has
    status 401, and then the body is not read. *)
Theorem authentication_message_iff_401 (w : env) :
  In (StError AuthenticationError) (fetch_events w)
  <-> exists r, requests_post w (fetch_request w) = Ok r /\ status_code r = 401.
Proof.
  unfold fetch_events. rewrite fetch_unfold.
  destruct (requests_post w _) as [r | e]; cbn.
  - destruct (status_code r =? 401) eqn:Hstatus; cbn.
    + split.
      * intros _. exists r. split; [ reflexivity | now apply Z.eqb_eq ].
      * intros _. right. now left.
    + apply Z.eqb_neq in Hstatus. split.
      * destruct (_ <- json r ;; _)%res; cbn.
        -- intros [[=] | []].
        -- intros [[=] | [[=] | []]].
      * intros (r' & [= <-] & H). contradiction.
  - split.
    + intros [[=] | [[=] | []]].
    + intros (r' & [=] & _).
Qed.

(** X7: a body that decodes to something other than an object (an array,
    a string, null) makes fetch return the empty list with the
    connection-failed message, on any status but 401. *)
Theorem fetch_non_object_body
  (w : env) (log : list event) (r : response) (data : pyval) :
  requests_post w (fetch_request w) = Ok r ->
  status_code r <> 401 ->
  json r = Ok data ->
  is_dict data = false ->
  fetch_jobs_from_notion w log
  = (Ok (PList []),
     (log ++ [Posted (fetch_request w);
              StError (ConnectionFailed AttributeError)])%list).
Proof.
  intros Hpost Hstatus Hjson Hdict.
  rewrite fetch_unfold, Hpost.
  apply Z.eqb_neq in Hstatus. rewrite Hstatus, Hjson.
  destruct data; try discriminate; cbn; now rewrite <- app_assoc.
Qed.

Lemma fetch_non_object_body_witness :
  let w := world_answering (Ok (json_response 200 (PList [intern_page]))) in
  fetch_jobs_from_notion w []
  = (Ok (PList []),
     [Posted (fetch_request w); StError (ConnectionFailed AttributeError)]).
Proof.
  intros w. eapply (fetch_non_object_body w []); try reflexivity.
  discriminate.
Defined.

(** X8: only the first fragment of a column is read: with a non-empty
    fragment list the value is the [plain_text] of its head, whatever the
    fragments after it and whatever the default. *)
Theorem first_fragment_only
  (props prop : list (string * pyval)) (name kind default : string)
  (frag : pyval) (rest : list pyval) :
  lookup name props = Some (PDict prop) ->
  lookup kind prop = Some (PList (frag :: rest)) ->
  first_plain_text (PDict props) name kind default = item frag "plain_text".
Proof.
  intros Hprop Hfrags. unfold first_plain_text. cbn.
  rewrite Hprop. cbn. rewrite Hfrags. reflexivity.
Qed.

Lemma first_fragment_only_witness :
  first_plain_text
    (PDict [("Description",
              PDict [("rich_text", PList [fragment "Build "; fragment "things"])])])
    "Description" "rich_text" ""
  = Ok (PStr "Build ").
Proof.
  rewrite (first_fragment_only _ [("rich_text", PList [fragment "Build "; fragment "things"])]
             _ _ _ (fragment "Build ") [fragment "things"]);
    reflexivity.
Defined.

(** ** create and the Post Job button *)

(** X9: whatever its six arguments and whatever the transport does, create
    does not raise: it sends one request and returns a bool, [True] with
    no message shown, or [False] with exactly one error message. *)
Theorem post_job_never_raises
  (w : env) (log : list event)
  (title role_detail company skills description contact : pyval) :
  let req :=
    create_request w title role_detail company skills description contact in
  (post_job_to_notion title role_detail company skills description contact w log
   = (Ok (PBool true), (log ++ [Posted req])%list))
  \/ (exists m,
        post_job_to_notion title role_detail company skills description contact
          w log
        = (Ok (PBool false), (log ++ [Posted req; StError m])%list)).
Proof.
  intros req. rewrite post_job_unfold. fold req. cbv zeta.
  destruct (requests_post w req) as [r | e].
  - destruct (status_code r =? 200); [ now left | right; now eexists ].
  - right. now eexists.
Qed.

(** With the Company, Role or Skills input left empty, pressing Post Job
    only shows the warning: no request is sent. *)
Lemma post_job_clicked_incomplete
  (company_name role_title contact_info req_skills job_desc : string)
  (w : env) (log : list event) :
  company_name = "" \/ role_title = "" \/ req_skills = "" ->
  post_job_clicked (PStr company_name) (PStr role_title) (PStr contact_info)
    (PStr req_skills) (PStr job_desc) w log
  = (Ok tt, (log ++ [StWarning "Please fill in Company, Role, and Skills."])%list).
Proof.
  intros H. unfold post_job_clicked, post_job_clicked_on.
  assert (Hguard :
    truthy (PStr company_name) && truthy (PStr role_title)
      && truthy (PStr req_skills) = false).
  { destruct H as [-> | [-> | ->]]; cbn.
    - reflexivity.
    - now rewrite andb_false_r.
    - now rewrite andb_false_r. }
  rewrite Hguard. reflexivity.
Qed.

Lemma post_job_clicked_raises_witness :
  post_job_clicked (PStr "Acme") (PStr "Dev") (PStr "a@b.com")
    (PStr "Python, SQL") (PStr "Build things")
    (world_answering (Ok (json_response 200 PNone))) []
  = (Raise TypeError, []).
Proof.
  apply post_job_clicked_raises; reflexivity.
Defined.

(** ** generate *)

(** Once the prompt is built, a run of generate returns a string. *)
Lemma guidance_run_shape
  (student_profile job_market_data : pyval) (w : env) (log : list event)
  (prompt : string) :
  guidance_prompt student_profile job_market_data = Ok prompt ->
  exists (report : string) (out : list event),
    get_career_guidance student_profile job_market_data w log = (Ok report, out).
Proof.
  intros Hprompt. rewrite guidance_unfold, Hprompt.
  destruct (model w) as [g | ]; [ | now eexists _, _ ].
  destruct (_ <- g _ ;; _)%res; now eexists _, _.
Qed.

(** The f-string raises only for a value the printers refuse. *)
Lemma guidance_prompt_built (student_profile job_market_data : pyval) :
  prints student_profile = true ->
  prints job_market_data = true ->
  guidance_prompt student_profile job_market_data
  = Ok (prompt_text (str student_profile) (dumps job_market_data)).
Proof.
  intros Hp Hd. unfold guidance_prompt, str_of, json_dumps.
  now rewrite Hp, Hd.
Qed.

(** X10: generate raises exactly when building the prompt raises, with
    that exception and before anything is submitted; once the prompt is
    built it does not raise, sends no request to the database and submits
    at most one prompt, the one it built.  The prompt is built whenever
    neither argument holds an int of more than 4300 digits. *)
Theorem guidance_raises_only_from_prompt
  (student_profile job_market_data : pyval) (w : env) (log : list event) :
  match guidance_prompt student_profile job_market_data with
  | Raise e =>
      get_career_guidance student_profile job_market_data w log = (Raise e, log)
      /\ e = ValueError
      /\ (prints student_profile = false \/ prints job_market_data = false)
  | Ok prompt =>
      exists (report : string) (submitted : list event),
        get_career_guidance student_profile job_market_data w log
        = (Ok report, (log ++ submitted)%list)
        /\ (submitted = [] \/ submitted = [Prompted prompt])
  end.
Proof.
  rewrite guidance_unfold.
  destruct (guidance_prompt student_profile job_market_data) as [prompt | e]
    eqn:Hprompt.
  - destruct (model w) as [g | ].
    + destruct (_ <- g _ ;; _)%res as [t | e].
      * exists t, [Prompted prompt]. split; [ reflexivity | now right ].
      * exists fallback_report, [Prompted prompt].
        split; [ reflexivity | now right ].
    + exists fallback_report, []. rewrite app_nil_r.
      split; [ reflexivity | now left ].
  - split; [ reflexivity | ].
    revert Hprompt. unfold guidance_prompt, str_of, json_dumps.
    destruct (prints student_profile); cbn [rbind].
    + destruct (prints job_market_data); cbn [rbind]; [ discriminate | ].
      intros [= <-]. split; [ reflexivity | now right ].
    + intros [= <-]. split; [ reflexivity | now left ].
Qed.

(** X11: when the prompt is built, the model answers and its text can be
    read, generate returns that text unchanged, after submitting the
    prompt once. *)
Theorem guidance_returns_model_text
  (student_profile job_market_data : pyval) (w : env) (log : list event)
  (prompt : string)
  (g : string -> result generation) (r : generation) (report : string) :
  guidance_prompt student_profile job_market_data = Ok prompt ->
  model w = Some g ->
  g prompt = Ok r ->
  gen_text r = Ok report ->
  get_career_guidance student_profile job_market_data w log
  = (Ok report, (log ++ [Prompted prompt])%list).
Proof.
  intros Hprompt Hm Hg Ht. rewrite guidance_unfold, Hprompt.
  rewrite Hm, Hg. unfold rbind. rewrite Ht. reflexivity.
Qed.

Lemma guidance_returns_model_text_witness :
  get_career_guidance sample_profile (PList [])
    (world_with_model (Ok {| gen_text := Ok "## Match Analysis" |})) []
  = (Ok "## Match Analysis",
     [Prompted (prompt_text
                  "{'name': 'Asha', 'skills': 'Python', 'interests': 'Data'}"
                  "[]")]).
Proof.
  eapply (guidance_returns_model_text sample_profile (PList []) _ []);
    reflexivity.
Defined.

(** ** Configuration that is not set *)

(** X12: with NOTION_KEY and NOTION_DATABASE_ID unset, fetch does not fail
    before the network: it still sends its request, to the database named
    None and with the bearer token None. *)
Theorem fetch_with_unset_configuration (w : env) (log : list event) :
  NOTION_KEY w = PNone ->
  NOTION_DATABASE_ID w = PNone ->
  exists shown,
    snd (fetch_jobs_from_notion w log)
    = (log ++
       Posted {| req_url := "https://api.notion.com/v1/databases/None/query";
                 req_headers :=
                   [ ("Authorization", "Bearer None");
                     ("Content-Type", "application/json");
                     ("Notion-Version", "2022-06-28") ];
                 req_json := PDict [] |} :: shown)%list.
Proof.
  intros Hkey Hdb.
  destruct (fetch_one_request_shape w log) as (jobs & shown & Hrun).
  exists shown. rewrite Hrun. cbn [snd].
  unfold fetch_request, notion_headers. rewrite Hkey, Hdb. reflexivity.
Qed.

Lemma fetch_with_unset_configuration_witness :
  exists shown,
    snd (fetch_jobs_from_notion
           {| NOTION_KEY := PNone;
              NOTION_DATABASE_ID := PNone;
              requests_post := fun _ => Ok (json_response 401 PNone);
              model := None |} [])
    = Posted {| req_url := "https://api.notion.com/v1/databases/None/query";
                req_headers :=
                  [ ("Authorization", "Bearer None");
                    ("Content-Type", "application/json");
                    ("Notion-Version", "2022-06-28") ];
                req_json := PDict [] |} :: shown.
Proof.
  apply (fetch_with_unset_configuration
           {| NOTION_KEY := PNone;
              NOTION_DATABASE_ID := PNone;
              requests_post := fun _ => Ok (json_response 401 PNone);
              model := None |} []);
    reflexivity.
Defined.

(** * The views *)

(** ** Calls of the backend from a view *)

Lemma fetch_result (w : env) :
  fst (fetch_jobs_from_notion w []) = Ok (PList (fetched_jobs w)).
Proof.
  unfold fetched_jobs.
  destruct (fetch_one_request_shape w []) as (jobs & shown & ->).
  reflexivity.
Qed.

Lemma backend_fetch (w : env) (page : list widget) :
  backend fetch_jobs_from_notion w page
  = (Ok (PList (fetched_jobs w)), (page ++ map Backend (fetch_events w))%list).
Proof.
  unfold backend, fetch_events.
  pose proof (fetch_result w) as H.
  destruct (fetch_jobs_from_notion w []) as [r evs]. cbn in *. now rewrite H.
Qed.

Lemma bind_backend_fetch {A} (k : pyval -> view A) (w : env) (page : list widget) :
  vbind (backend fetch_jobs_from_notion) k w page
  = k (PList (fetched_jobs w)) w (page ++ map Backend (fetch_events w))%list.
Proof. unfold vbind. now rewrite backend_fetch. Qed.

Lemma bind_show {A} (wd : widget) (k : unit -> view A) (w : env)
  (page : list widget) :
  vbind (show wd) k w page = k tt w (page ++ [wd])%list.
Proof. reflexivity. Qed.

Lemma bind_lift_ok {A B} (a : A) (k : A -> view B) (w : env)
  (page : list widget) :
  vbind (vlift (Ok a)) k w page = k a w page.
Proof. reflexivity. Qed.

Lemma fetched_jobs_listings (w : env) : Forall is_listing (fetched_jobs w).
Proof. apply (fetch_ok_listings w []), fetch_result. Qed.

(** ** Loops over listings *)

Lemma show_listing_ok job (w : env) (page : list widget) :
  is_listing job ->
  show_listing job w page = (Ok tt, (page ++ listing_widgets job)%list).
Proof.
  intros (role & company & skills & description & ->).
  unfold show_listing. view_unfold. cbn. now rewrite <- !app_assoc.
Qed.

Lemma show_job_card_ok job (w : env) (page : list widget) :
  is_listing job ->
  show_job_card job w page = (Ok tt, (page ++ card_widget job)%list).
Proof.
  intros (role & company & skills & description & ->). reflexivity.
Qed.

Lemma for_each_ok (body : pyval -> view unit) (widgets : pyval -> list widget)
  (jobs : list pyval) (w : env) :
  (forall job page, In job jobs ->
     body job w page = (Ok tt, (page ++ widgets job)%list)) ->
  forall page,
    for_each body jobs w page = (Ok tt, (page ++ flat_map widgets jobs)%list).
Proof.
  induction jobs as [ | job rest IH]; intros Hbody page; cbn.
  - unfold vret. now rewrite app_nil_r.
  - unfold vbind. rewrite Hbody by now left.
    rewrite IH by (intros j p Hj; apply Hbody; now right).
    now rewrite <- app_assoc.
Qed.

Lemma firstn_listings (n : nat) (jobs : list pyval) :
  Forall is_listing jobs -> Forall is_listing (firstn n jobs).
Proof.
  intros H. revert n.
  induction H as [ | job rest Hjob _ IH]; intros [ | n]; cbn; constructor;
    [ exact Hjob | apply IH ].
Qed.

(** ** Recruiter view *)

(** X13: Current Active Listings never raises: after the fetch it shows,
    for each listing in the order fetched, an expander labelled
    "role at company" with the skills line and the description, or the
    no-active-jobs notice when the fetch gave nothing (an empty database
    and a failed fetch alike). *)
Theorem active_listings_shown (w : env) (page : list widget) :
  active_listings w page
  = (Ok tt,
     (page ++ map Backend (fetch_events w)
        ++ match fetched_jobs w with
           | [] => [NoActiveJobs]
           | jobs => flat_map listing_widgets jobs
           end)%list)
  /\ Forall is_listing (fetched_jobs w).
Proof.
  split; [ | apply fetched_jobs_listings ].
  unfold active_listings. rewrite bind_backend_fetch.
  pose proof (fetched_jobs_listings w) as Hall.
  destruct (fetched_jobs w) as [ | job rest]; cbn [truthy].
  - unfold show. now rewrite <- app_assoc.
  - cbn [iter]. rewrite bind_lift_ok.
    rewrite (for_each_ok show_listing listing_widgets).
    + now rewrite <- app_assoc.
    + intros j p Hj. apply show_listing_ok.
      rewrite Forall_forall in Hall. now apply Hall.
Qed.

(** X14: pressing Post Job with Company, Role and Skills filled ends the
    recruiter view with a [TypeError]: no request is sent, nothing is
    shown, and the listings below the form are not reached. *)
Theorem recruiter_view_post_raises
  (company_name role_title contact_info req_skills job_desc : string)
  (w : env) (page : list widget) :
  company_name <> "" -> role_title <> "" -> req_skills <> "" ->
  recruiter_view true company_name role_title contact_info req_skills job_desc
    w page
  = (Raise TypeError, page).
Proof.
  intros Hc Hr Hs. unfold recruiter_view, vbind, backend.
  rewrite post_job_clicked_raises.
  - cbn. now rewrite app_nil_r.
  - cbn. now apply negb_true_iff, String.eqb_neq.
  - cbn. now apply negb_true_iff, String.eqb_neq.
  - cbn. now apply negb_true_iff, String.eqb_neq.
Qed.

Lemma recruiter_view_post_raises_witness :
  recruiter_view true "Acme" "Dev" "a@b.com" "Python, SQL" "Build things"
    (world_answering (Ok (json_response 200 (query_result [intern_page])))) []
  = (Raise TypeError, []).
Proof.
  apply recruiter_view_post_raises; discriminate.
Defined.

(** X15: pressing Post Job with Company, Role or Skills empty shows the
    warning, sends no create request, and the view goes on to the
    listings. *)
Theorem recruiter_view_incomplete
  (company_name role_title contact_info req_skills job_desc : string)
  (w : env) (page : list widget) :
  company_name = "" \/ role_title = "" \/ req_skills = "" ->
  recruiter_view true company_name role_title contact_info req_skills job_desc
    w page
  = active_listings w
      (page ++ [Backend (StWarning "Please fill in Company, Role, and Skills.")])%list.
Proof.
  intros H. unfold recruiter_view, vbind at 1, backend.
  rewrite post_job_clicked_incomplete by exact H. reflexivity.
Qed.

Lemma recruiter_view_incomplete_witness :
  recruiter_view true "" "Dev" "a@b.com" "Python" "Build things"
    (world_answering (Raise (RequestException "offline"))) []
  = active_listings (world_answering (Raise (RequestException "offline")))
      [Backend (StWarning "Please fill in Company, Role, and Skills.")].
Proof.
  apply (recruiter_view_incomplete "" "Dev" "a@b.com" "Python" "Build things").
  now left.
Defined.

(** ** Student view *)

(** X16: with the Analyze button not pressed the student view fetches
    once and shows a card for each of the first three listings fetched, in
    their order (the list is cut with [[:3]]), or the no-jobs line when
    there is none; it never raises. *)
Theorem student_view_idle
  (s_name s_skills s_interests : string) (w : env) (page : list widget) :
  student_view false s_name s_skills s_interests w page
  = (Ok tt,
     (page ++ GetStarted :: map Backend (fetch_events w)
        ++ match firstn 3 (fetched_jobs w) with
           | [] => [NoJobsAvailable]
           | recent => flat_map card_widget recent
           end)%list).
Proof.
  unfold student_view. cbn [andb].
  rewrite bind_show, bind_backend_fetch. cbn [slice_to].
  rewrite bind_lift_ok.
  pose proof (firstn_listings 3 _ (fetched_jobs_listings w)) as Hall.
  destruct (firstn 3 (fetched_jobs w)) as [ | job rest]; cbn [truthy].
  - unfold show. now rewrite <- !app_assoc.
  - cbn [iter]. rewrite bind_lift_ok.
    rewrite (for_each_ok show_job_card card_widget).
    + now rewrite <- !app_assoc.
    + intros j p Hj. apply show_job_card_ok.
      rewrite Forall_forall in Hall. now apply Hall.
Qed.

(** *** What the fetch returns can be printed *)

Lemma prints_lookup kvs k x :
  prints (PDict kvs) = true -> lookup k kvs = Some x -> prints x = true.
Proof.
  induction kvs as [ | [k' v] rest IH]; cbn; [ discriminate | ].
  intros H. apply andb_prop in H as [Hv Hrest].
  destruct (String.eqb k k').
  - now intros [= <-].
  - now apply IH.
Qed.

Lemma prints_get v k d x :
  prints v = true -> prints d = true -> get v k d = Ok x -> prints x = true.
Proof.
  intros Hv Hd. destruct v as [ | | | | | | kvs]; cbn; try discriminate.
  destruct (lookup k kvs) as [y | ] eqn:Hy; intros [= <-].
  - now apply prints_lookup with kvs k.
  - exact Hd.
Qed.

Lemma prints_item0 v x :
  prints v = true -> item0 v = Ok x -> prints x = true.
Proof.
  destruct v as [ | | | | s | l | ]; cbn; try discriminate.
  - destruct s; [ discriminate | ]. now intros _ [= <-].
  - destruct l as [ | y l]; [ discriminate | ]. cbn.
    intros H [= <-]. now apply andb_prop in H as [H _].
Qed.

Lemma prints_item v k x :
  prints v = true -> item v k = Ok x -> prints x = true.
Proof.
  intros Hv. destruct v as [ | | | | | | kvs]; cbn; try discriminate.
  destruct (lookup k kvs) as [y | ] eqn:Hy; [ | discriminate ].
  intros [= <-]. now apply prints_lookup with kvs k.
Qed.

Lemma prints_first_plain_text props name kind default v :
  prints props = true ->
  first_plain_text props name kind default = Ok v ->
  prints v = true.
Proof.
  intros Hprops. unfold first_plain_text.
  destruct (get props name (PDict [])) as [prop | ] eqn:Hprop; cbn;
    [ | discriminate ].
  apply prints_get in Hprop; [ | exact Hprops | reflexivity ].
  destruct (get prop kind (PList [])) as [frags | ] eqn:Hfrags; cbn;
    [ | discriminate ].
  apply prints_get in Hfrags; [ | exact Hprop | reflexivity ].
  destruct (truthy frags); [ | now intros [= <-] ].
  destruct (item0 frags) as [frag | ] eqn:Hfrag; cbn; [ | discriminate ].
  apply prints_item0 in Hfrag; [ | exact Hfrags ].
  now apply prints_item.
Qed.

Lemma prints_extract_job page job :
  prints page = true -> extract_job page = Ok job -> prints job = true.
Proof.
  intros Hpage. unfold extract_job.
  destruct (get page "properties" (PDict [])) as [props | ] eqn:Hprops; cbn;
    [ | discriminate ].
  apply prints_get in Hprops; [ | exact Hpage | reflexivity ].
  destruct (first_plain_text props "Title" "title" "Untitled")
    as [job_title | ]; cbn; [ | discriminate ].
  destruct (first_plain_text props "Role" "rich_text" "")
    as [role_detail | ]; cbn; [ | discriminate ].
  destruct (first_plain_text props "Company" "rich_text" "Unknown")
    as [company | ] eqn:Hc; cbn; [ | discriminate ].
  destruct (first_plain_text props "Required Skills" "rich_text" "")
    as [skills | ] eqn:Hs; cbn; [ | discriminate ].
  destruct (first_plain_text props "Description" "rich_text" "")
    as [desc | ] eqn:Hd; cbn; [ | discriminate ].
  intros [= <-]. cbn.
  rewrite (prints_first_plain_text _ _ _ _ _ Hprops Hc),
    (prints_first_plain_text _ _ _ _ _ Hprops Hs),
    (prints_first_plain_text _ _ _ _ _ Hprops Hd).
  reflexivity.
Qed.

Lemma prints_for_pages pages :
  forall jobs out,
    forallb prints pages = true ->
    forallb prints jobs = true ->
    for_pages pages jobs = Ok out ->
    forallb prints out = true.
Proof.
  induction pages as [ | page rest IH]; intros jobs out Hpages Hjobs; cbn.
  - now intros [= <-].
  - cbn in Hpages. apply andb_prop in Hpages as [Hpage Hrest].
    destruct (extract_job page) as [job | ] eqn:Hjob; cbn; [ | discriminate ].
    apply IH; [ exact Hrest | ].
    rewrite forallb_app, Hjobs. cbn.
    now rewrite (prints_extract_job page job Hpage Hjob).
Qed.

Lemma prints_iter v l :
  prints v = true -> iter v = Ok l -> forallb prints l = true.
Proof.
  destruct v as [ | | | | s | l' | kvs]; cbn; try discriminate.
  - intros _ [= <-]. unfold chars. rewrite forallb_forall.
    intros x Hx. apply in_map_iff in Hx as (c & <- & _). reflexivity.
  - now intros H [= <-].
  - intros _ [= <-]. rewrite forallb_forall.
    intros x Hx. apply in_map_iff in Hx as (kv & <- & _). reflexivity.
Qed.

Lemma fetched_jobs_print (w : env) :
  body_prints w -> prints (PList (fetched_jobs w)) = true.
Proof.
  intros Hbody. unfold fetched_jobs, body_prints in *.
  rewrite fetch_unfold.
  destruct (requests_post w (fetch_request w)) as [r | e]; [ | reflexivity ].
  specialize (Hbody r).
  destruct (status_code r =? 401); [ reflexivity | ].
  destruct (json r) as [data | e]; [ | reflexivity ].
  specialize (Hbody data eq_refl eq_refl). cbn [rbind].
  destruct (get data "results" (PList [])) as [results | e] eqn:Hresults;
    [ | reflexivity ].
  apply prints_get in Hresults; [ | exact Hbody | reflexivity ]. cbn [rbind].
  destruct (iter results) as [pages | e] eqn:Hpages; [ | reflexivity ].
  apply prints_iter in Hpages; [ | exact Hresults ]. cbn [rbind].
  destruct (for_pages pages []) as [out | e] eqn:Hloop; [ | reflexivity ].
  cbn. now apply (prints_for_pages pages [] out).
Qed.

(** X17: with the Analyze button pressed and skills and interests filled,
    the student view fetches once, then calls generate once on the profile
    dict (name, skills, interests) and on exactly the list the fetch
    returned, and shows the report, or ends with the exception generate
    raised.  When the decoded body holds no int of more than 4300 digits
    (which [response.json()] guarantees) generate returns and the view
    does not raise, also when the fetch failed or the database is
    empty. *)
Theorem student_view_analysis
  (s_name s_skills s_interests : string) (w : env) (page : list widget) :
  s_skills <> "" -> s_interests <> "" ->
  student_view true s_name s_skills s_interests w page
  = match get_career_guidance (profile_dict s_name s_skills s_interests)
            (PList (fetched_jobs w)) w [] with
    | (Ok report, submitted) =>
        (Ok tt,
         (page ++ map Backend (fetch_events w) ++ map Backend submitted
            ++ [ReportCard report])%list)
    | (Raise e, submitted) =>
        (Raise e,
         (page ++ map Backend (fetch_events w) ++ map Backend submitted)%list)
    end
  /\ (body_prints w ->
      exists (report : string) (submitted : list event),
        get_career_guidance (profile_dict s_name s_skills s_interests)
          (PList (fetched_jobs w)) w []
        = (Ok report, submitted)
        /\ student_view true s_name s_skills s_interests w page
           = (Ok tt,
              (page ++ map Backend (fetch_events w) ++ map Backend submitted
                 ++ [ReportCard report])%list)).
Proof.
  intros Hs Hi.
  assert (Hflow :
    student_view true s_name s_skills s_interests w page
    = match get_career_guidance (profile_dict s_name s_skills s_interests)
              (PList (fetched_jobs w)) w [] with
      | (Ok report, submitted) =>
          (Ok tt,
           (page ++ map Backend (fetch_events w) ++ map Backend submitted
              ++ [ReportCard report])%list)
      | (Raise e, submitted) =>
          (Raise e,
           (page ++ map Backend (fetch_events w) ++ map Backend submitted)%list)
      end).
  { unfold student_view. cbn [andb truthy].
    apply String.eqb_neq in Hs, Hi. rewrite Hs, Hi. cbn [negb andb].
    rewrite bind_backend_fetch.
    unfold vbind, backend, show.
    destruct (get_career_guidance _ _ w []) as [[report | e] submitted];
      now rewrite <- !app_assoc. }
  split; [ exact Hflow | ].
  intros Hbody.
  destruct (guidance_run_shape (profile_dict s_name s_skills s_interests)
              (PList (fetched_jobs w)) w []
              (prompt_text (str (profile_dict s_name s_skills s_interests))
                 (dumps (PList (fetched_jobs w)))))
    as (report & submitted & Hrun).
  { apply guidance_prompt_built; [ reflexivity | ].
    now apply fetched_jobs_print. }
  exists report, submitted. split; [ exact Hrun | ].
  rewrite Hflow, Hrun. reflexivity.
Qed.

Lemma student_view_analysis_witness :
  exists (report : string) (submitted : list event),
    get_career_guidance (profile_dict "" "Python" "Data")
      (PList (fetched_jobs
                (world_with_model (Ok {| gen_text := Ok "## Match Analysis" |}))))
      (world_with_model (Ok {| gen_text := Ok "## Match Analysis" |})) []
    = (Ok report, submitted)
    /\ student_view true "" "Python" "Data"
         (world_with_model (Ok {| gen_text := Ok "## Match Analysis" |})) []
       = (Ok tt,
          (map Backend
             (fetch_events
                (world_with_model (Ok {| gen_text := Ok "## Match Analysis" |})))
             ++ map Backend submitted ++ [ReportCard report])%list).
Proof.
  apply (proj2 (student_view_analysis "" "Python" "Data"
                  (world_with_model (Ok {| gen_text := Ok "## Match Analysis" |}))
                  [] ltac:(discriminate) ltac:(discriminate))).
  intros r v Hpost. discriminate Hpost.
Defined.

(** X18: with the Analyze button pressed and the skills or the interests
    left empty, the student view only shows the warning: it neither
    fetches nor calls the model. *)
Theorem student_view_incomplete
  (s_name s_skills s_interests : string) (w : env) (page : list widget) :
  s_skills = "" \/ s_interests = "" ->
  student_view true s_name s_skills s_interests w page
  = (Ok tt, (page ++ [ProfileIncomplete])%list).
Proof.
  intros H. unfold student_view. cbn [andb].
  assert (Hguard : truthy (PStr s_skills) && truthy (PStr s_interests) = false).
  { destruct H as [-> | ->]; cbn; [ reflexivity | now rewrite andb_false_r ]. }
  rewrite Hguard. reflexivity.
Qed.

Lemma student_view_incomplete_witness :
  student_view true "Asha" "Python" ""
    (world_with_model (Ok {| gen_text := Ok "## Match Analysis" |})) []
  = (Ok tt, [ProfileIncomplete]).
Proof.
  apply (student_view_incomplete "Asha" "Python" ""). now right.
Defined.
